(** * Atmosphere API v2: the resource handlers of [api/v2/views.py]

    A shallow embedding of the seventeen view sets, of the part of Django's
    object-relational mapper their queries go through, and of the part of the
    REST framework that runs them (permission check, dispatch on the verb,
    generic list / retrieve / create / update / destroy, exception handling).

    Rows are dictionaries from column names to values, tables are lists of
    rows in insertion order, a query set is a lazily evaluated function of the
    database, and a request runs in a state-and-exception monad whose state
    holds the database, the clock, the log of evaluated queries and the view
    instance [self] that the handlers mutate. *)

From Stdlib Require Import ZArith QArith Qcanon.
From stdpp Require Import base option list strings gmap numbers functions.

Local Open Scope Z_scope.

(** ** Column values and rows *)

Inductive value :=
| VNone
| VInt (z : Z)
| VDec (q : Qc)
| VStr (s : string)
| VBool (b : bool).

Global Instance value_eq_dec : EqDecision value.
Proof. solve_decision. Defined.

(** A model instance: its columns by name.  A foreign key column holds the
    primary key of the row it points to. *)
Abbreviation row := (gmap string value).

(** Attribute access; an absent column reads as NULL. *)
Definition field (f : string) (r : row) : value := default VNone (r !! f).

Definition pk (r : row) : value := field "id" r.

(** Numeric reading of a value, for the ordered lookups. *)
Definition to_number (v : value) : option Qc :=
  match v with
  | VInt z => Some (Qc_of_Z z)
  | VDec q => Some q
  | _ => None
  end.

(** Equality as the database compares: numbers by their value. *)
Definition value_eq (a b : value) : bool :=
  match to_number a, to_number b with
  | Some x, Some y => bool_decide (x = y)
  | _, _ => bool_decide (a = b)
  end.

Definition value_le (a b : value) : bool :=
  match to_number a, to_number b with
  | Some x, Some y => bool_decide (x ≤ y)%Qc
  | _, _ => false
  end.

Definition value_lt (a b : value) : bool :=
  match to_number a, to_number b with
  | Some x, Some y => bool_decide (x < y)%Qc
  | _, _ => false
  end.

(** ** Models and their relations *)

Inductive model :=
| Tag | AtmosphereUser | Project | Image | Provider | Identity | Quota
| Allocation | Volume | Instance | InstanceAction | VolumeAction
| ProviderType | PlatformType | ProviderMachine | ImageBookmark | Size
| Group.

Global Instance model_eq_dec : EqDecision model.
Proof. solve_decision. Defined.

Inductive relation :=
| ForeignKey (target : model)
| ManyToMany (target : model)
| ReverseForeignKey (source : model) (column : string).

Definition target (rel : relation) : model :=
  match rel with
  | ForeignKey t => t
  | ManyToMany t => t
  | ReverseForeignKey s _ => s
  end.

(** Modelled from the spec: [core.models] is not among the sources.  The
    relations are the ones the handlers' queries and the visibility table of
    the data model name: a project's owner is a group, groups and providers
    are many-to-many, a project has instances and volumes, a size, a volume
    and an identity belong to a provider, and rows carry their creating
    user. *)
Definition related_field (m : model) (f : string) : option relation :=
  match m, f with
  | Project, "owner" => Some (ForeignKey Group)
  | Project, "instances" => Some (ManyToMany Instance)
  | Project, "volumes" => Some (ManyToMany Volume)
  | Group, "providers" => Some (ManyToMany Provider)
  | Provider, "size_set" => Some (ReverseForeignKey Size "provider")
  | AtmosphereUser, "identity_set" => Some (ReverseForeignKey Identity "created_by")
  | Tag, "user" => Some (ForeignKey AtmosphereUser)
  | Image, "created_by" => Some (ForeignKey AtmosphereUser)
  | Image, "tags" => Some (ManyToMany Tag)
  | Identity, "created_by" => Some (ForeignKey AtmosphereUser)
  | Identity, "provider" => Some (ForeignKey Provider)
  | Volume, "created_by" => Some (ForeignKey AtmosphereUser)
  | Volume, "provider" => Some (ForeignKey Provider)
  | Instance, "created_by" => Some (ForeignKey AtmosphereUser)
  | ImageBookmark, "user" => Some (ForeignKey AtmosphereUser)
  | Size, "provider" => Some (ForeignKey Provider)
  | _, _ => None
  end.

(** ** The database *)

Record database := {
  tables : model → list row;
  (** the link table of a many-to-many field: (owner pk, target pk) *)
  links : model → string → list (value * value)
}.

(** The rows reached from [r] through the relation [f] of model [m]. *)
Definition related (d : database) (m : model) (f : string) (r : row) : list row :=
  match related_field m f with
  | Some (ForeignKey t) =>
      filter (λ x, pk x = field f r ∧ field f r ≠ VNone) (tables d t)
  | Some (ManyToMany t) =>
      filter (λ x, (pk r, pk x) ∈ links d m f) (tables d t)
  | Some (ReverseForeignKey s c) =>
      filter (λ x, field c x = pk r ∧ pk r ≠ VNone) (tables d s)
  | None => []
  end.

(** The values a lookup path such as [owner__name] (written
    [["owner"; "name"]]) reaches from a row: a join along the relations, then
    the column.  A foreign key at the end of a path is its own column. *)
Fixpoint path_values (d : database) (m : model) (path : list string) (r : row)
  : list value :=
  match path with
  | [] => [pk r]
  | f :: rest =>
      match related_field m f with
      | None => match rest with [] => [field f r] | _ => [] end
      | Some rel =>
          match rel, rest with
          | ForeignKey _, [] => [field f r]
          | _, _ => r' ← related d m f r; path_values d (target rel) rest r'
          end
      end
  end.

(** ** Q objects and query sets *)

(** A condition on the rows of a model, as [filter] takes them: a Q object
    or a keyword lookup. *)
Definition Qobject := database → model → row → bool.

Record QuerySet := {
  qs_model : model;
  qs_rows : database → list row
}.

(** [path=v]; with [v = None] this is [path__isnull=True]. *)
Definition exact (path : list string) (v : value) : Qobject :=
  λ d m r, existsb (value_eq v) (path_values d m path r).

Definition gte (path : list string) (v : value) : Qobject :=
  λ d m r, existsb (λ x, value_le v x) (path_values d m path r).

Definition lte (path : list string) (v : value) : Qobject :=
  λ d m r, existsb (λ x, value_le x v) (path_values d m path r).

Definition gt (path : list string) (v : value) : Qobject :=
  λ d m r, existsb (λ x, value_lt v x) (path_values d m path r).

(** [path__in=qs]: the sub-query yields the primary keys of [qs]. *)
Definition in_ (path : list string) (qs : QuerySet) : Qobject :=
  λ d m r, existsb (λ v, bool_decide (v ≠ VNone ∧ v ∈ pk <$> qs_rows qs d))
                   (path_values d m path r).

Definition Q_and (a b : Qobject) : Qobject := λ d m r, a d m r && b d m r.
Definition Q_or (a b : Qobject) : Qobject := λ d m r, a d m r || b d m r.

(** [Model.objects.all()] *)
Definition objects (m : model) : QuerySet :=
  {| qs_model := m; qs_rows := λ d, tables d m |}.

(** [qs.filter(c1, ..., cn)]: the rows that meet every condition. *)
Definition qs_filter (conds : list Qobject) (qs : QuerySet) : QuerySet :=
  {| qs_model := qs_model qs;
     qs_rows := λ d, filter (λ r, forallb (λ c, c d (qs_model qs) r) conds = true)
                            (qs_rows qs d) |}.

(** A related manager: [instance.f.get_queryset()], [instance.f.filter(...)]. *)
Definition related_manager (m : model) (f : string) (r : row) : QuerySet :=
  {| qs_model := from_option target m (related_field m f);
     qs_rows := λ d, related d m f r |}.

(** Modelled from the spec: [core.query.only_current] is not among the
    sources.  "A row is active if the current instant falls within its
    start/end validity window"; a row without an end date has not ended. *)
Definition only_current_at (now : Z) : Qobject :=
  Q_and (lte ["start_date"] (VInt now))
        (Q_or (exact ["end_date"] VNone) (gt ["end_date"] (VInt now))).

(** ** Requests *)

Inductive http_method := GET | HEAD | OPTIONS | TRACE | POST | PUT | PATCH | DELETE.

Global Instance http_method_eq_dec : EqDecision http_method.
Proof. solve_decision. Defined.

(** [request.user] as the authentication layer supplies it. *)
Record auth_user := {
  user_pk : Z;
  user_username : string;
  user_is_staff : bool
}.

Inductive request_user := AnonymousUser | Authenticated (u : auth_user).

Definition username (u : request_user) : string :=
  match u with AnonymousUser => "" | Authenticated a => user_username a end.

Definition is_staff (u : request_user) : bool :=
  match u with AnonymousUser => false | Authenticated a => user_is_staff a end.

Definition is_authenticated (u : request_user) : bool :=
  match u with AnonymousUser => false | Authenticated _ => true end.

Record Request := {
  method : http_method;
  user : request_user;
  (** the filter parameters of the query string, as the filter form cleans them *)
  query_params : gmap string value;
  (** what the serializer makes of the body: [None] when it rejects it,
      otherwise the validated fields *)
  validated_data : option row;
  (** whether the authentication scheme supplies a WWW-Authenticate header *)
  authenticate_header : bool
}.

(** ** Permission classes ([rest_framework.permissions]) *)

Inductive permission := AllowAny | IsAuthenticated | IsAdminUser | IsAuthenticatedOrReadOnly.

Definition SAFE_METHODS : list http_method := [GET; HEAD; OPTIONS].

Definition has_permission (p : permission) (req : Request) : bool :=
  match p with
  | AllowAny => true
  | IsAuthenticated => is_authenticated (user req)
  | IsAdminUser => is_staff (user req)
  | IsAuthenticatedOrReadOnly =>
      bool_decide (method req ∈ SAFE_METHODS) || is_authenticated (user req)
  end.

(** ** Exceptions and responses *)

Inductive exception :=
(* rest_framework.exceptions.APIException *)
| NotAuthenticated | PermissionDenied | MethodNotAllowed | ValidationError
(* django.http *)
| Http404
(* django.core.exceptions *)
| DoesNotExist (m : model) | MultipleObjectsReturned (m : model)
(* builtins *)
| TypeError | ValueError | AttributeError | AssertionError.

Global Instance exception_eq_dec : EqDecision exception.
Proof. solve_decision. Defined.

Inductive serializer :=
| TagSerializer | UserSerializer | ProjectSerializer | ImageSerializer
| ProviderSerializer | IdentitySerializer | QuotaSerializer
| AllocationSerializer | VolumeSerializer | InstanceSerializer
| InstanceActionSerializer | VolumeActionSerializer | ProviderTypeSerializer
| PlatformTypeSerializer | ProviderMachineSerializer
| ImageBookmarkSerializer | SizeSerializer | SizeSummarySerializer.

Inductive body :=
| NoContent
| Many (s : serializer) (rs : list row)
| One (s : serializer) (r : row)
| Metadata
| Detail (e : exception).

Record Response := { status_code : Z; data : body }.

(** [rest_framework.views.exception_handler]: the exceptions it turns into a
    response; any other is raised again and ends as a server error. *)
Definition exception_handler (authenticate : bool) (e : exception) : option Response :=
  match e with
  | NotAuthenticated =>
      Some {| status_code := if authenticate then 401 else 403; data := Detail e |}
  | PermissionDenied => Some {| status_code := 403; data := Detail e |}
  | MethodNotAllowed => Some {| status_code := 405; data := Detail e |}
  | ValidationError => Some {| status_code := 400; data := Detail e |}
  | Http404 => Some {| status_code := 404; data := Detail e |}
  | _ => None
  end.

Definition server_error (e : exception) : Response :=
  {| status_code := 500; data := Detail e |}.

(** ** The classes of [views.py] and of the framework *)

Inductive viewset :=
| TagViewSet | UserViewSet | ProjectViewSet | ImageViewSet | ProviderViewSet
| IdentityViewSet | QuotaViewSet | AllocationViewSet | VolumeViewSet
| InstanceViewSet | InstanceActionViewSet | VolumeActionViewSet
| ProviderTypeViewSet | PlatformTypeViewSet | ProviderMachineViewSet
| ImageBookmarkViewSet | SizeViewSet.

Global Instance viewset_eq_dec : EqDecision viewset.
Proof. solve_decision. Defined.

(** The framework classes the view sets derive from. *)
Inductive base :=
| ModelViewSet | ReadOnlyModelViewSet
| CreateModelMixin | RetrieveModelMixin | UpdateModelMixin | DestroyModelMixin
| ListModelMixin | GenericViewSet | ViewSetMixin | GenericAPIView | APIView
| View | object.

Global Instance base_eq_dec : EqDecision base.
Proof. solve_decision. Defined.

(** The class each view set is declared with: [viewsets.ModelViewSet], but
    [viewsets.ReadOnlyModelViewSet] for providers. *)
Definition superclass (v : viewset) : base :=
  match v with
  | ProviderViewSet => ReadOnlyModelViewSet
  | _ => ModelViewSet
  end.

(** Method resolution order of the framework classes. *)
Definition mro (b : base) : list base :=
  match b with
  | ModelViewSet =>
      [ModelViewSet; CreateModelMixin; RetrieveModelMixin; UpdateModelMixin;
       DestroyModelMixin; ListModelMixin; GenericViewSet; ViewSetMixin;
       GenericAPIView; APIView; View; object]
  | ReadOnlyModelViewSet =>
      [ReadOnlyModelViewSet; RetrieveModelMixin; ListModelMixin;
       GenericViewSet; ViewSetMixin; GenericAPIView; APIView; View; object]
  | GenericViewSet => [GenericViewSet; ViewSetMixin; GenericAPIView; APIView; View; object]
  | GenericAPIView => [GenericAPIView; APIView; View; object]
  | APIView => [APIView; View; object]
  | View => [View; object]
  | b => [b; object]
  end.

(** The methods the framework classes define, among those looked up here. *)
Definition defines (b : base) (attr : string) : bool :=
  match b, attr with
  | CreateModelMixin, "create" => true
  | CreateModelMixin, "perform_create" => true
  | RetrieveModelMixin, "retrieve" => true
  | UpdateModelMixin, "update" => true
  | UpdateModelMixin, "partial_update" => true
  | DestroyModelMixin, "destroy" => true
  | ListModelMixin, "list" => true
  | GenericAPIView, "get_queryset" => true
  | GenericAPIView, "get_object" => true
  | APIView, "get_permissions" => true
  | APIView, "options" => true
  | _, _ => false
  end.

(** The methods a view set defines in its own body. *)
Definition own_methods (v : viewset) : list string :=
  match v with
  | TagViewSet => ["perform_create"; "get_permissions"]
  | ProjectViewSet => ["get_queryset"; "instances"; "volumes"]
  | ProviderViewSet => ["get_permissions"; "get_queryset"; "sizes"]
  | IdentityViewSet | VolumeViewSet | InstanceViewSet
  | ImageBookmarkViewSet | SizeViewSet => ["get_queryset"]
  | _ => []
  end.

Definition hasattr (v : viewset) (attr : string) : bool :=
  existsb (String.eqb attr) (own_methods v)
  || existsb (λ b, defines b attr) (mro (superclass v)).

(** Where [super(c, self).attr] finds [attr]: the first class after [c] in
    the method resolution order of [self] that defines it.  [None] when [c]
    is not a class of [self] at all, which is a [TypeError] in Python. *)
Fixpoint after (c : base) (l : list base) : option (list base) :=
  match l with
  | [] => None
  | b :: l' => if decide (b = c) then Some l' else after c l'
  end.

Definition super (c : base) (v : viewset) (attr : string) : option (option base) :=
  match after c (mro (superclass v)) with
  | Some l => Some (List.find (λ b, defines b attr) l)
  | None => None
  end.

(** *** Class attributes *)

Definition model_of (v : viewset) : model :=
  match v with
  | TagViewSet => Tag
  | UserViewSet => AtmosphereUser
  | ProjectViewSet => Project
  | ImageViewSet => Image
  | ProviderViewSet => Provider
  | IdentityViewSet => Identity
  | QuotaViewSet => Quota
  | AllocationViewSet => Allocation
  | VolumeViewSet => Volume
  | InstanceViewSet => Instance
  | InstanceActionViewSet => InstanceAction
  | VolumeActionViewSet => VolumeAction
  | ProviderTypeViewSet => ProviderType
  | PlatformTypeViewSet => PlatformType
  | ProviderMachineViewSet => ProviderMachine
  | ImageBookmarkViewSet => ImageBookmark
  | SizeViewSet => Size
  end.

(** [queryset = Model.objects.all()] *)
Definition class_queryset (v : viewset) : QuerySet := objects (model_of v).

Definition class_serializer_class (v : viewset) : serializer :=
  match v with
  | TagViewSet => TagSerializer
  | UserViewSet => UserSerializer
  | ProjectViewSet => ProjectSerializer
  | ImageViewSet => ImageSerializer
  | ProviderViewSet => ProviderSerializer
  | IdentityViewSet => IdentitySerializer
  | QuotaViewSet => QuotaSerializer
  | AllocationViewSet => AllocationSerializer
  | VolumeViewSet => VolumeSerializer
  | InstanceViewSet => InstanceSerializer
  | InstanceActionViewSet => InstanceActionSerializer
  | VolumeActionViewSet => VolumeActionSerializer
  | ProviderTypeViewSet => ProviderTypeSerializer
  | PlatformTypeViewSet => PlatformTypeSerializer
  | ProviderMachineViewSet => ProviderMachineSerializer
  | ImageBookmarkViewSet => ImageBookmarkSerializer
  | SizeViewSet => SizeSerializer
  end.

(** Modelled from the spec: the project settings are not among the sources.
    "Default: authenticated users may read; write requires authentication
    (IsAuthenticatedOrReadOnly equivalent) unless stated otherwise." *)
Definition DEFAULT_PERMISSION_CLASSES : list permission := [IsAuthenticatedOrReadOnly].

(** [permission_classes], inherited from [APIView] where a class does not
    declare it. *)
Definition class_permission_classes (v : viewset) : list permission :=
  match v with
  | TagViewSet => [IsAuthenticatedOrReadOnly]
  | ProviderViewSet => [IsAuthenticated]
  | _ => DEFAULT_PERMISSION_CLASSES
  end.

(** [http_method_names], inherited from [View] where a class does not
    declare it. *)
Definition http_method_names (v : viewset) : list http_method :=
  match v with
  | ProviderViewSet => [GET; HEAD; OPTIONS; TRACE]
  | _ => [GET; POST; PUT; PATCH; DELETE; HEAD; OPTIONS; TRACE]
  end.

(** *** Declared filters ([filter_fields], [filter_class]) *)

Inductive lookup_type := Exact | Gte | Lte.

Record Filter := {
  param : string;
  name : list string;
  lookup : lookup_type
}.

(** [filter_fields = (f, ...)]: an exact match on each field. *)
Definition filter_field (p : string) (path : list string) : Filter :=
  {| param := p; name := path; lookup := Exact |}.

(** [django_filters.NumberFilter(name=..., lookup_type=...)] *)
Definition NumberFilter (p : string) (column : string) (l : lookup_type) : Filter :=
  {| param := p; name := [column]; lookup := l |}.

Definition VolumeFilter : list Filter :=
  [ filter_field "provider__id" ["provider"; "id"];
    NumberFilter "min_size" "size" Gte;
    NumberFilter "max_size" "size" Lte ].

Definition filters (v : viewset) : list Filter :=
  match v with
  | UserViewSet => [filter_field "email" ["email"]]
  | ImageViewSet =>
      [filter_field "created_by__username" ["created_by"; "username"];
       filter_field "tags__name" ["tags"; "name"]]
  | VolumeViewSet => VolumeFilter
  | InstanceViewSet => [filter_field "created_by__id" ["created_by"; "id"]]
  | _ => []
  end.

Definition lookup_condition (l : lookup_type) : list string → value → Qobject :=
  match l with Exact => exact | Gte => gte | Lte => lte end.

(** One filter of a filter set: skipped when its parameter is absent or
    empty, otherwise one more [filter] call on the query set. *)
Definition apply_filter (params : gmap string value) (qs : QuerySet) (f : Filter)
  : QuerySet :=
  match params !! param f with
  | None | Some VNone => qs
  | Some v => qs_filter [lookup_condition (lookup f) (name f) v] qs
  end.

(** Modelled from the spec: the filter backends are named in the project
    settings, which are not among the sources.  "list ... returns the scoped
    query narrowed by any declared filter fields"; the free-text search of
    images is left out, the modelled request carries no search term. *)
Definition DjangoFilterBackend (v : viewset) (params : gmap string value)
  (qs : QuerySet) : QuerySet :=
  foldl (apply_filter params) qs (filters v).

(** ** The view instance and the state of a request *)

Record ViewInstance := {
  view_class : viewset;
  request : Request;
  (** the primary key of the URL, on detail routes *)
  kwargs_pk : option Z;
  (** instance attributes, which start as the class attributes *)
  permission_classes : list permission;
  queryset : QuerySet;
  serializer_class : serializer;
  (** [self.get_queryset], once an instance attribute shadows the method:
      the class whose method it is bound to *)
  get_queryset_attr : option base
}.

Definition set_permission_classes (ps : list permission) (v : ViewInstance) :=
  {| view_class := view_class v; request := request v; kwargs_pk := kwargs_pk v;
     permission_classes := ps; queryset := queryset v;
     serializer_class := serializer_class v;
     get_queryset_attr := get_queryset_attr v |}.

Definition set_queryset (qs : QuerySet) (v : ViewInstance) :=
  {| view_class := view_class v; request := request v; kwargs_pk := kwargs_pk v;
     permission_classes := permission_classes v; queryset := qs;
     serializer_class := serializer_class v;
     get_queryset_attr := get_queryset_attr v |}.

Definition set_serializer_class (s : serializer) (v : ViewInstance) :=
  {| view_class := view_class v; request := request v; kwargs_pk := kwargs_pk v;
     permission_classes := permission_classes v; queryset := queryset v;
     serializer_class := s;
     get_queryset_attr := get_queryset_attr v |}.

Definition set_get_queryset (b : base) (v : ViewInstance) :=
  {| view_class := view_class v; request := request v; kwargs_pk := kwargs_pk v;
     permission_classes := permission_classes v; queryset := queryset v;
     serializer_class := serializer_class v;
     get_queryset_attr := Some b |}.

(** A fresh instance per request, as [as_view] makes it. *)
Definition instantiate (v : viewset) (req : Request) (key : option Z) : ViewInstance :=
  {| view_class := v; request := req; kwargs_pk := key;
     permission_classes := class_permission_classes v;
     queryset := class_queryset v;
     serializer_class := class_serializer_class v;
     get_queryset_attr := None |}.

Record state := {
  db : database;
  clock : Z;
  (** the models whose tables were queried, oldest first *)
  queries : list model;
  self : ViewInstance
}.

Inductive outcome (A : Type) :=
| Return (a : A)
| Raise (e : exception).
Arguments Return {A} a.
Arguments Raise {A} e.

Definition M (A : Type) : Type := state → outcome A * state.

Global Instance M_ret : MRet M := λ A a s, (Return a, s).

Global Instance M_bind : MBind M := λ A B f m s,
  match m s with
  | (Return a, s') => f a s'
  | (Raise e, s') => (Raise e, s')
  end.

Definition raise {A} (e : exception) : M A := λ s, (Raise e, s).

Definition get_self : M ViewInstance := λ s, (Return (self s), s).

Definition modify_self (f : ViewInstance → ViewInstance) : M unit :=
  λ s, (Return (), {| db := db s; clock := clock s; queries := queries s;
                      self := f (self s) |}).

Definition get_db : M database := λ s, (Return (db s), s).

Definition set_db (d : database) : M unit :=
  λ s, (Return (), {| db := d; clock := clock s; queries := queries s;
                      self := self s |}).

(** [timezone.now()] *)
Definition timezone_now : M Z := λ s, (Return (clock s), s).

(** Evaluating a query set runs its query on the current database. *)
Definition evaluate (qs : QuerySet) : M (list row) :=
  λ s, (Return (qs_rows qs (db s)),
        {| db := db s; clock := clock s; queries := queries s ++ [qs_model qs];
           self := self s |}).

(** [only_current()] reads the clock when it is called. *)
Definition only_current : M Qobject :=
  now ← timezone_now; mret (only_current_at now).

(** [qs.get()]: the one row of the query set. *)
Definition qs_get (qs : QuerySet) : M row :=
  rows ← evaluate qs;
  match rows with
  | [] => raise (DoesNotExist (qs_model qs))
  | [r] => mret r
  | _ => raise (MultipleObjectsReturned (qs_model qs))
  end.

(** ** Writing to the database *)

Definition set_table (m : model) (rows : list row) (d : database) : database :=
  {| tables := <[m := rows]> (tables d); links := links d |}.

(** The next value of the primary key sequence of a table. *)
Definition next_pk (rows : list row) : Z :=
  1 + foldr Z.max 0 (omap (λ r, match pk r with VInt z => Some z | _ => None end) rows).

(** [Model.objects.create] with the fields as keyword arguments *)
Definition objects_create (m : model) (fields : row) : M row :=
  d ← get_db;
  let r := <["id" := VInt (next_pk (tables d m))]> fields in
  set_db (set_table m (tables d m ++ [r]) d);;
  mret r.

(** [instance.save()] of a row that is in the table. *)
Definition instance_save (m : model) (r : row) : M unit :=
  d ← get_db;
  set_db (set_table m ((λ x, if decide (pk x = pk r) then r else x) <$> tables d m) d).

(** [instance.delete()] *)
Definition instance_delete (m : model) (r : row) : M unit :=
  d ← get_db;
  set_db (set_table m (filter (λ x, pk x ≠ pk r) (tables d m)) d).

(** The model a serializer class is declared for ([Meta.model]). *)
Definition serializer_model (s : serializer) : model :=
  match s with
  | TagSerializer => Tag
  | UserSerializer => AtmosphereUser
  | ProjectSerializer => Project
  | ImageSerializer => Image
  | ProviderSerializer => Provider
  | IdentitySerializer => Identity
  | QuotaSerializer => Quota
  | AllocationSerializer => Allocation
  | VolumeSerializer => Volume
  | InstanceSerializer => Instance
  | InstanceActionSerializer => InstanceAction
  | VolumeActionSerializer => VolumeAction
  | ProviderTypeSerializer => ProviderType
  | PlatformTypeSerializer => PlatformType
  | ProviderMachineSerializer => ProviderMachine
  | ImageBookmarkSerializer => ImageBookmark
  | SizeSerializer | SizeSummarySerializer => Size
  end.

(** [serializer.save] with keyword arguments: the keyword arguments are laid over the
    validated fields, then the row is created, or the instance updated. *)
Definition serializer_save (instance : option row) (validated : row) (kwargs : row)
  : M row :=
  s ← get_self;
  let m := serializer_model (serializer_class s) in
  let fields := kwargs ∪ validated in
  match instance with
  | None => objects_create m fields
  | Some r => let r' := fields ∪ r in instance_save m r';; mret r'
  end.

(** A user object as the value of a lookup or of an assigned foreign key;
    the anonymous user is no model instance. *)
Definition lookup_value (u : request_user) : M value :=
  match u with
  | Authenticated a => mret (VInt (user_pk a))
  | AnonymousUser => raise TypeError
  end.

Definition assigned_value (u : request_user) : M value :=
  match u with
  | Authenticated a => mret (VInt (user_pk a))
  | AnonymousUser => raise ValueError
  end.

(** ** Methods of the framework classes *)

(** [APIView.get_permissions] *)
Definition APIView_get_permissions : M (list permission) :=
  s ← get_self; mret (permission_classes s).

(** [GenericAPIView.get_queryset] *)
Definition GenericAPIView_get_queryset : M QuerySet :=
  s ← get_self; mret (queryset s).

(** [super(c, self).attr]: the class whose [attr] it is. *)
Definition super_attr (c : base) (attr : string) : M base :=
  s ← get_self;
  match super c (view_class s) attr with
  | None => raise TypeError
  | Some None => raise AttributeError
  | Some (Some b) => mret b
  end.

Definition call_get_permissions (b : base) : M (list permission) :=
  match b with
  | APIView => APIView_get_permissions
  | _ => raise AttributeError
  end.

Definition call_get_queryset (b : base) : M QuerySet :=
  match b with
  | GenericAPIView => GenericAPIView_get_queryset
  | _ => raise AttributeError
  end.

(** ** The methods of the view sets *)

Definition TagViewSet_perform_create (validated : row) : M row :=
  s ← get_self;
  u ← assigned_value (user (request s));
  serializer_save None validated {["user" := u]}.

Definition TagViewSet_get_permissions : M (list permission) :=
  s ← get_self;
  let method := method (request s) in
  (if decide (method = DELETE ∨ method = PUT)
   then modify_self (set_permission_classes [IsAdminUser])
   else mret ());;
  b ← super_attr ModelViewSet "get_permissions";
  call_get_permissions b.

Definition ProjectViewSet_get_queryset : M QuerySet :=
  s ← get_self;
  let user := user (request s) in
  current ← only_current;
  mret (qs_filter [current; exact ["owner"; "name"] (VStr (username user))]
                  (objects Project)).

Definition ProviderViewSet_get_permissions : M (list permission) :=
  s ← get_self;
  let method := method (request s) in
  (if decide (method = DELETE ∨ method = PUT)
   then modify_self (set_permission_classes [IsAdminUser])
   else mret ());;
  b ← super_attr GenericViewSet "get_permissions";
  call_get_permissions b.

Definition ProviderViewSet_get_queryset : M QuerySet :=
  s ← get_self;
  let user := user (request s) in
  group ← qs_get (qs_filter [exact ["name"] (VStr (username user))] (objects Group));
  current ← only_current;
  mret (qs_filter [current; exact ["active"] (VBool true)]
                  (related_manager Group "providers" group)).

Definition IdentityViewSet_get_queryset : M QuerySet :=
  s ← get_self;
  let user := user (request s) in
  group ← qs_get (qs_filter [exact ["name"] (VStr (username user))] (objects Group));
  current ← only_current;
  let providers := qs_filter [current; exact ["active"] (VBool true)]
                             (related_manager Group "providers" group) in
  match user with
  | AnonymousUser => raise AttributeError
  | Authenticated a =>
      mret (qs_filter [in_ ["provider"] providers]
              (related_manager AtmosphereUser "identity_set" {["id" := VInt (user_pk a)]}))
  end.

Definition VolumeViewSet_get_queryset : M QuerySet :=
  s ← get_self;
  let user := user (request s) in
  current ← only_current;
  u ← lookup_value user;
  mret (qs_filter [current; exact ["created_by"] u] (objects Volume)).

Definition InstanceViewSet_get_queryset : M QuerySet :=
  s ← get_self;
  let user := user (request s) in
  current ← only_current;
  u ← lookup_value user;
  mret (qs_filter [current; exact ["created_by"] u] (objects Instance)).

Definition ImageBookmarkViewSet_get_queryset : M QuerySet :=
  s ← get_self;
  let user := user (request s) in
  u ← lookup_value user;
  mret (qs_filter [exact ["user"] u] (objects ImageBookmark)).

Definition SizeViewSet_get_queryset : M QuerySet :=
  s ← get_self;
  let user := user (request s) in
  group ← qs_get (qs_filter [exact ["name"] (VStr (username user))] (objects Group));
  current ← only_current;
  let providers := qs_filter [current; exact ["active"] (VBool true)]
                             (related_manager Group "providers" group) in
  current' ← only_current;
  mret (qs_filter [current'; in_ ["provider"] providers] (objects Size)).

(** ** Method lookup on the instance *)

(** [self.get_permissions()] *)
Definition get_permissions : M (list permission) :=
  s ← get_self;
  match view_class s with
  | TagViewSet => TagViewSet_get_permissions
  | ProviderViewSet => ProviderViewSet_get_permissions
  | _ => APIView_get_permissions
  end.

(** [self.get_queryset()]: the instance attribute if one was assigned,
    otherwise the method of the class. *)
Definition get_queryset : M QuerySet :=
  s ← get_self;
  match get_queryset_attr s with
  | Some b => call_get_queryset b
  | None =>
      match view_class s with
      | ProjectViewSet => ProjectViewSet_get_queryset
      | ProviderViewSet => ProviderViewSet_get_queryset
      | IdentityViewSet => IdentityViewSet_get_queryset
      | VolumeViewSet => VolumeViewSet_get_queryset
      | InstanceViewSet => InstanceViewSet_get_queryset
      | ImageBookmarkViewSet => ImageBookmarkViewSet_get_queryset
      | SizeViewSet => SizeViewSet_get_queryset
      | _ => GenericAPIView_get_queryset
      end
  end.

(** [self.perform_create(serializer)]; [CreateModelMixin]'s saves the
    serializer as it is. *)
Definition perform_create (validated : row) : M row :=
  s ← get_self;
  match view_class s with
  | TagViewSet => TagViewSet_perform_create validated
  | _ => serializer_save None validated ∅
  end.

(** ** The generic view ([rest_framework.views], [generics], [mixins]) *)

(** [APIView.permission_denied] *)
Definition permission_denied {A} : M A :=
  s ← get_self;
  if is_authenticated (user (request s))
  then raise PermissionDenied
  else raise NotAuthenticated.

(** [APIView.check_permissions] *)
Definition check_permissions : M unit :=
  ps ← get_permissions;
  s ← get_self;
  if forallb (λ p, has_permission p (request s)) ps
  then mret ()
  else permission_denied.

(** [APIView.check_object_permissions]; none of the permission classes in
    use restricts single objects. *)
Definition check_object_permissions (obj : row) : M unit :=
  get_permissions;; mret ().

(** [GenericAPIView.filter_queryset]; the result is not paginated. *)
Definition filter_queryset (qs : QuerySet) : M QuerySet :=
  s ← get_self;
  mret (DjangoFilterBackend (view_class s) (query_params (request s)) qs).

(** [get_object_or_404(queryset, pk=key)] *)
Definition get_object_or_404 (qs : QuerySet) (key : Z) : M row :=
  rows ← evaluate (qs_filter [exact ["id"] (VInt key)] qs);
  match rows with
  | [] => raise Http404
  | [r] => mret r
  | _ => raise (MultipleObjectsReturned (qs_model qs))
  end.

(** [GenericAPIView.get_object] *)
Definition get_object : M row :=
  qs ← get_queryset;
  qs ← filter_queryset qs;
  s ← get_self;
  match kwargs_pk s with
  | None => raise AssertionError
  | Some key =>
      obj ← get_object_or_404 qs key;
      check_object_permissions obj;;
      mret obj
  end.

(** [ListModelMixin.list] *)
Definition ListModelMixin_list : M Response :=
  qs ← get_queryset;
  qs ← filter_queryset qs;
  rows ← evaluate qs;
  s ← get_self;
  mret {| status_code := 200; data := Many (serializer_class s) rows |}.

(** [RetrieveModelMixin.retrieve] *)
Definition RetrieveModelMixin_retrieve : M Response :=
  instance ← get_object;
  s ← get_self;
  mret {| status_code := 200; data := One (serializer_class s) instance |}.

(** [CreateModelMixin.create] *)
Definition CreateModelMixin_create : M Response :=
  s ← get_self;
  match validated_data (request s) with
  | None => raise ValidationError
  | Some validated =>
      r ← perform_create validated;
      mret {| status_code := 201; data := One (serializer_class s) r |}
  end.

(** [UpdateModelMixin.update] and [partial_update], which differ in what
    the serializer accepts. *)
Definition UpdateModelMixin_update : M Response :=
  instance ← get_object;
  s ← get_self;
  match validated_data (request s) with
  | None => raise ValidationError
  | Some validated =>
      r ← serializer_save (Some instance) validated ∅;
      mret {| status_code := 200; data := One (serializer_class s) r |}
  end.

(** [DestroyModelMixin.destroy] *)
Definition DestroyModelMixin_destroy : M Response :=
  instance ← get_object;
  s ← get_self;
  instance_delete (serializer_model (serializer_class s)) instance;;
  mret {| status_code := 204; data := NoContent |}.

(** ** The related-list actions *)

Definition ProjectViewSet_instances : M Response :=
  project ← get_object;
  b ← super_attr ModelViewSet "get_queryset";
  modify_self (set_get_queryset b);;
  modify_self (set_queryset (related_manager Project "instances" project));;
  modify_self (set_serializer_class InstanceSerializer);;
  ListModelMixin_list.

Definition ProjectViewSet_volumes : M Response :=
  project ← get_object;
  b ← super_attr ModelViewSet "get_queryset";
  modify_self (set_get_queryset b);;
  modify_self (set_queryset (related_manager Project "volumes" project));;
  modify_self (set_serializer_class VolumeSerializer);;
  ListModelMixin_list.

Definition ProviderViewSet_sizes : M Response :=
  provider ← get_object;
  b ← super_attr ModelViewSet "get_queryset";
  modify_self (set_get_queryset b);;
  modify_self (set_queryset (related_manager Provider "size_set" provider));;
  modify_self (set_serializer_class SizeSummarySerializer);;
  ListModelMixin_list.

(** ** Routing and dispatch *)

Inductive route :=
| ListRoute
| DetailRoute (key : Z)
| DetailAction (action : string) (key : Z).

Definition route_pk (rt : route) : option Z :=
  match rt with
  | ListRoute => None
  | DetailRoute key => Some key
  | DetailAction _ key => Some key
  end.

(** The actions declared with [@detail_route()], which answer GET. *)
Definition detail_routes (v : viewset) : list string :=
  match v with
  | ProjectViewSet => ["instances"; "volumes"]
  | ProviderViewSet => ["sizes"]
  | _ => []
  end.

(** The router's verb-to-action table of a route, kept to the actions the
    view set has. *)
Definition action_map (v : viewset) (rt : route) : list (http_method * string) :=
  List.filter (λ ma, hasattr v ma.2)
    match rt with
    | ListRoute => [(GET, "list"); (POST, "create")]
    | DetailRoute _ =>
        [(GET, "retrieve"); (PUT, "update"); (PATCH, "partial_update");
         (DELETE, "destroy")]
    | DetailAction a _ =>
        if existsb (String.eqb a) (detail_routes v) then [(GET, a)] else []
    end.

Definition bound (v : viewset) (rt : route) (m : http_method) : option string :=
  match List.find (λ ma, bool_decide (ma.1 = m)) (action_map v rt) with
  | Some ma => Some ma.2
  | None => None
  end.

(** The handler [dispatch] picks: none for a verb outside
    [http_method_names] or without a bound action.  HEAD is answered by the
    handler of GET, OPTIONS by [APIView.options]. *)
Definition handler (v : viewset) (rt : route) (m : http_method) : option string :=
  if existsb (λ x, bool_decide (x = m)) (http_method_names v) then
    match m with
    | OPTIONS => Some "options"
    | HEAD => bound v rt GET
    | _ => bound v rt m
    end
  else None.

Definition run_action (a : string) : M Response :=
  match a with
  | "list" => ListModelMixin_list
  | "create" => CreateModelMixin_create
  | "retrieve" => RetrieveModelMixin_retrieve
  | "update" => UpdateModelMixin_update
  | "partial_update" => UpdateModelMixin_update
  | "destroy" => DestroyModelMixin_destroy
  | "instances" => ProjectViewSet_instances
  | "volumes" => ProjectViewSet_volumes
  | "sizes" => ProviderViewSet_sizes
  | "options" => mret {| status_code := 200; data := Metadata |}
  | _ => raise AttributeError
  end.

(** [APIView.dispatch]: the permission check of [initial] comes first, then
    the choice of the handler. *)
Definition dispatch (rt : route) : M Response :=
  check_permissions;;
  s ← get_self;
  match handler (view_class s) rt (method (request s)) with
  | None => raise MethodNotAllowed
  | Some a => run_action a
  end.

(** [APIView.handle_exception], and the server error an exception it does
    not handle ends as. *)
Definition handle_exception (req : Request) (e : exception) : Response :=
  default (server_error e) (exception_handler (authenticate_header req) e).

(** One request to a view set: the response and the state it leaves. *)
Definition serve (v : viewset) (rt : route) (req : Request) (d : database) (now : Z)
  : Response * state :=
  let s0 := {| db := d; clock := now; queries := [];
               self := instantiate v req (route_pk rt) |} in
  match dispatch rt s0 with
  | (Return resp, s) => (resp, s)
  | (Raise e, s) => (handle_exception req e, s)
  end.

(** ** What a response shows, and the notions the properties use *)

Definition listed (resp : Response) : list row :=
  match data resp with Many _ rs => rs | _ => [] end.

Definition shown (resp : Response) : option row :=
  match data resp with One _ r => Some r | _ => None end.

(** The owner of project [p] is a group named [s]. *)
Definition owner_named (d : database) (p : row) (s : string) : Prop :=
  ∃ g, g ∈ tables d Group ∧ pk g = field "owner" p ∧ field "owner" p ≠ VNone
       ∧ field "name" g = VStr s.

(** The rows of a model with primary key [key]. *)
Definition with_pk (d : database) (m : model) (key : Z) : list row :=
  qs_rows (qs_filter [exact ["id"] (VInt key)] (objects m)) d.

(** The projects with primary key [key] that user [u] sees at time [now]:
    the query [get_object] runs for the Project handler. *)
Definition visible_project (d : database) (now : Z) (u : request_user) (key : Z)
  : list row :=
  qs_rows (qs_filter [exact ["id"] (VInt key)]
             (qs_filter [only_current_at now;
                         exact ["owner"; "name"] (VStr (username u))]
                        (objects Project))) d.

(** The groups named [s]. *)
Definition groups_named (d : database) (s : string) : list row :=
  qs_rows (qs_filter [exact ["name"] (VStr s)] (objects Group)) d.

(** The view sets whose visible rows come from the group named after the
    requesting user. *)
Definition group_scoped : list viewset :=
  [ProviderViewSet; IdentityViewSet; SizeViewSet].

(** A request, field by field. *)
Definition mkreq (m : http_method) (u : request_user) (qp : gmap string value)
  (body : option row) (ah : bool) : Request :=
  {| method := m; user := u; query_params := qp; validated_data := body;
     authenticate_header := ah |}.

(** The state a request to a view set starts in, as [serve] sets it up. *)
Definition initial_state (v : viewset) (rt : route) (req : Request) (d : database)
  (now : Z) : state :=
  {| db := d; clock := now; queries := [];
     self := instantiate v req (route_pk rt) |}.

(** The providers the group [g] gives sight of at time [now]: the inner
    query of the Provider, Identity and Size handlers. *)
Definition visible_providers (now : Z) (g : row) : QuerySet :=
  qs_filter [only_current_at now; exact ["active"] (VBool true)]
            (related_manager Group "providers" g).

(** The view sets that show a user the rows carrying that user, and the
    column that carries it. *)
Definition user_scoped : list viewset :=
  [VolumeViewSet; InstanceViewSet; ImageBookmarkViewSet].

Definition user_column (v : viewset) : string :=
  match v with ImageBookmarkViewSet => "user" | _ => "created_by" end.

(** The view sets that declare neither [get_queryset] nor filters. *)
Definition unscoped : list viewset :=
  [TagViewSet; QuotaViewSet; AllocationViewSet; InstanceActionViewSet;
   VolumeActionViewSet; ProviderTypeViewSet; PlatformTypeViewSet;
   ProviderMachineViewSet].

(** The verbs a detail route binds. *)
Definition detail_verbs : list http_method := [GET; PUT; PATCH; DELETE].

(** The view sets whose [delete] nothing restricts beyond authentication. *)
Definition freely_deletable : list viewset :=
  [QuotaViewSet; AllocationViewSet; InstanceActionViewSet; VolumeActionViewSet;
   ProviderTypeViewSet; PlatformTypeViewSet; ProviderMachineViewSet].

(** ** Example data *)

Definition alice : auth_user :=
  {| user_pk := 1; user_username := "alice"; user_is_staff := false |}.
Definition bob : auth_user :=
  {| user_pk := 2; user_username := "bob"; user_is_staff := false |}.
Definition root : auth_user :=
  {| user_pk := 3; user_username := "root"; user_is_staff := true |}.
Definition carol : auth_user :=
  {| user_pk := 4; user_username := "carol"; user_is_staff := false |}.

Definition get_as (u : request_user) : Request :=
  {| method := GET; user := u; query_params := ∅; validated_data := None;
     authenticate_header := true |}.

Definition mkrow (l : list (string * value)) : row := list_to_map l.

Definition demo_db : database :=
  {| tables := λ m,
       match m with
       | Group => [mkrow [("id", VInt 10); ("name", VStr "alice")];
                   mkrow [("id", VInt 11); ("name", VStr "bob")]]
       | Project =>
           [mkrow [("id", VInt 1); ("owner", VInt 10); ("start_date", VInt 0)];
            mkrow [("id", VInt 2); ("owner", VInt 11); ("start_date", VInt 0)];
            mkrow [("id", VInt 3); ("owner", VInt 10); ("start_date", VInt 0);
                   ("end_date", VInt 50)]]
       | Provider =>
           [mkrow [("id", VInt 20); ("active", VBool true); ("start_date", VInt 0)]]
       | Size =>
           [mkrow [("id", VInt 30); ("provider", VInt 20); ("start_date", VInt 0)];
            mkrow [("id", VInt 31); ("provider", VInt 20); ("start_date", VInt 0);
                   ("end_date", VInt 50)]]
       | Volume =>
           [mkrow [("id", VInt 40); ("size", VInt 5); ("created_by", VInt 1);
                   ("provider", VInt 20); ("start_date", VInt 0)];
            mkrow [("id", VInt 41); ("size", VInt 20); ("created_by", VInt 1);
                   ("provider", VInt 20); ("start_date", VInt 0)]]
       | Tag => [mkrow [("id", VInt 7); ("name", VStr "x"); ("user", VInt 2)]]
       | _ => []
       end;
     links := λ m f,
       match m, f with
       | Group, "providers" => [(VInt 10, VInt 20)]
       | _, _ => []
       end |}.

(** The example data with users, images, instances, identities, bookmarks
    and quotas added. *)
Definition site_db : database :=
  {| tables := λ m,
       match m with
       | AtmosphereUser =>
           [mkrow [("id", VInt 1); ("username", VStr "alice");
                   ("email", VStr "alice@example.org")];
            mkrow [("id", VInt 2); ("username", VStr "bob");
                   ("email", VStr "bob@example.org")]]
       | Image => [mkrow [("id", VInt 5); ("created_by", VInt 1)];
                   mkrow [("id", VInt 6); ("created_by", VInt 2)]]
       | Instance =>
           [mkrow [("id", VInt 50); ("created_by", VInt 1); ("start_date", VInt 0)];
            mkrow [("id", VInt 51); ("created_by", VInt 2); ("start_date", VInt 0);
                   ("end_date", VInt 10)]]
       | Identity =>
           [mkrow [("id", VInt 60); ("created_by", VInt 1); ("provider", VInt 20)];
            mkrow [("id", VInt 61); ("created_by", VInt 2); ("provider", VInt 20)]]
       | ImageBookmark =>
           [mkrow [("id", VInt 70); ("user", VInt 1); ("application", VInt 5)];
            mkrow [("id", VInt 71); ("user", VInt 2); ("application", VInt 5)]]
       | Quota => [mkrow [("id", VInt 80); ("cpu", VInt 16)]]
       | m => tables demo_db m
       end;
     links := λ m f,
       match m, f with
       | Project, "instances" => [(VInt 1, VInt 50); (VInt 1, VInt 51)]
       | Image, "tags" => [(VInt 5, VInt 7)]
       | m, f => links demo_db m f
       end |}.

(** * Properties *)

(** Runs the control flow of a request and leaves the queries in place. *)
Ltac run :=
  cbv -[qs_filter related_manager objects exact gte lte gt in_ only_current_at
        tables links app set_table next_pk field pk
        union insert empty filter fmap lookup qs_rows qs_model singletonM
        Z.add Z.max username with_pk groups_named visible_project].

(** ** The mapper *)

Lemma value_eq_str s x : value_eq (VStr s) x = true ↔ x = VStr s.
Proof.
  unfold value_eq; simpl. rewrite bool_decide_eq_true. split; congruence.
Qed.

Lemma value_eq_int a b : value_eq (VInt a) (VInt b) = true ↔ a = b.
Proof.
  unfold value_eq; simpl. rewrite bool_decide_eq_true. apply Z2Qc_inj_iff.
Qed.

Lemma qs_rows_filter conds qs d r :
  r ∈ qs_rows (qs_filter conds qs) d ↔
  r ∈ qs_rows qs d ∧ forallb (λ c, c d (qs_model qs) r) conds = true.
Proof. unfold qs_filter; simpl. rewrite list_elem_of_filter. tauto. Qed.

Lemma exact_owner_name d p s :
  exact ["owner"; "name"] (VStr s) d Project p = true ↔ owner_named d p s.
Proof.
  unfold exact, owner_named. rewrite existsb_exists.
  change (path_values d Project ["owner"; "name"] p)
    with (filter (λ x, pk x = field "owner" p ∧ field "owner" p ≠ VNone)
                 (tables d Group) ≫= λ g, [field "name" g]).
  split.
  - intros (x & Hx & Heq). apply list_elem_of_In, list_elem_of_bind in Hx.
    destruct Hx as (g & Hg & Hin). apply list_elem_of_filter in Hin.
    apply list_elem_of_singleton in Hg. apply value_eq_str in Heq.
    exists g. intuition congruence.
  - intros (g & Hin & Hpk & Hnn & Hname). exists (VStr s). split.
    + apply list_elem_of_In, list_elem_of_bind. exists g. split.
      * rewrite Hname. apply list_elem_of_singleton. reflexivity.
      * apply list_elem_of_filter. auto.
    + apply value_eq_str. reflexivity.
Qed.

Lemma groups_named_nil d s :
  (∀ g, g ∈ tables d Group → field "name" g ≠ VStr s) → groups_named d s = [].
Proof.
  intros H. unfold groups_named, qs_filter; cbn [qs_rows qs_model objects].
  destruct (filter _ _) as [|g l] eqn:E; [done|]. exfalso.
  assert (Hg : g ∈ filter (λ r, forallb (λ c, c d Group r) [exact ["name"] (VStr s)] = true)
                          (tables d Group)) by (rewrite E; left).
  apply list_elem_of_filter in Hg as [Hc Hin].
  cbn in Hc. rewrite !orb_false_r, andb_true_r in Hc.
  apply value_eq_str in Hc. exact (H g Hin Hc).
Qed.

(** "Currently active", column by column: the row has started, and has no
    end date or one that is still ahead. *)
Lemma only_current_at_iff now d m r :
  only_current_at now d m r = true ↔
  value_le (field "start_date" r) (VInt now) = true
  ∧ (field "end_date" r = VNone ∨ value_lt (VInt now) (field "end_date" r) = true).
Proof.
  unfold only_current_at, Q_and, Q_or, lte, gt, exact.
  assert (Hs : path_values d m ["start_date"] r = [field "start_date" r])
    by (destruct m; reflexivity).
  assert (He : path_values d m ["end_date"] r = [field "end_date" r])
    by (destruct m; reflexivity).
  rewrite Hs, He. cbn [existsb].
  rewrite !orb_false_r, andb_true_iff, orb_true_iff.
  unfold value_eq at 1. cbn [to_number]. rewrite bool_decide_eq_true.
  intuition congruence.
Qed.

(** ** The embedding on the example data *)

Example alice_lists_her_active_projects :
  pk <$> listed (serve ProjectViewSet ListRoute (get_as (Authenticated alice))
                   demo_db 100).1 = [VInt 1].
Proof. vm_compute. reflexivity. Qed.

Example alice_lists_her_provider :
  pk <$> listed (serve ProviderViewSet ListRoute (get_as (Authenticated alice))
                   demo_db 100).1 = [VInt 20]
  ∧ queries (serve ProviderViewSet ListRoute (get_as (Authenticated alice))
               demo_db 100).2 = [Group; Provider].
Proof. split; vm_compute; reflexivity. Qed.

Example anonymous_provider_list_refused :
  status_code (serve ProviderViewSet ListRoute (get_as AnonymousUser) demo_db 100).1
  = 401.
Proof. vm_compute. reflexivity. Qed.

Example alice_cannot_delete_tag :
  status_code (serve TagViewSet (DetailRoute 7)
                 (mkreq DELETE (Authenticated alice) ∅ None true) demo_db 100).1 = 403.
Proof. vm_compute. reflexivity. Qed.

Example alice_patches_tag :
  status_code (serve TagViewSet (DetailRoute 7)
                 (mkreq PATCH (Authenticated alice) ∅
                    (Some (mkrow [("name", VStr "y")])) true) demo_db 100).1 = 200
  ∧ field "name" <$> tables (db (serve TagViewSet (DetailRoute 7)
                 (mkreq PATCH (Authenticated alice) ∅
                    (Some (mkrow [("name", VStr "y")])) true) demo_db 100).2) Tag
    = [VStr "y"].
Proof. split; vm_compute; reflexivity. Qed.

(** ** Project listing *)

Lemma serve_project_list u qp vd ah d now :
  serve ProjectViewSet ListRoute (mkreq GET u qp vd ah) d now =
  ({| status_code := 200;
      data := Many ProjectSerializer
                (qs_rows (qs_filter [only_current_at now;
                                     exact ["owner"; "name"] (VStr (username u))]
                                    (objects Project)) d) |},
   {| db := d; clock := now; queries := [Project];
      self := instantiate ProjectViewSet (mkreq GET u qp vd ah) None |}).
Proof. reflexivity. Qed.

(** C1.  A project is in the result of the Project list operation if and
    only if it is a row of the Project table whose owner is a group named
    after the requesting user and which is currently active. *)
Theorem project_list_iff_owned_and_active u qp vd ah d now (P : row) :
  P ∈ listed (serve ProjectViewSet ListRoute (mkreq GET u qp vd ah) d now).1
  ↔ P ∈ tables d Project
    ∧ owner_named d P (username u)
    ∧ only_current_at now d Project P = true.
Proof.
  rewrite serve_project_list. cbn [listed data fst].
  rewrite qs_rows_filter. cbn [qs_rows qs_model objects forallb].
  rewrite andb_true_r, andb_true_iff, exact_owner_name. tauto.
Qed.

(** ** The eponymous group *)

Lemma group_scoped_cases v :
  v ∈ group_scoped → v = ProviderViewSet ∨ v = IdentityViewSet ∨ v = SizeViewSet.
Proof. unfold group_scoped. rewrite !elem_of_cons, elem_of_nil. tauto. Qed.

Ltac fold_groups_named a d :=
  change (qs_rows (qs_filter [exact ["name"] (VStr (username (Authenticated a)))]
                             (objects Group)) d)
    with (groups_named d (user_username a)).

Lemma missing_group_list v a qp vd ah d now :
  v ∈ group_scoped →
  groups_named d (user_username a) = [] →
  serve v ListRoute (mkreq GET (Authenticated a) qp vd ah) d now =
  (server_error (DoesNotExist Group),
   {| db := d; clock := now; queries := [Group];
      self := instantiate v (mkreq GET (Authenticated a) qp vd ah) None |}).
Proof.
  intros Hv Hg.
  destruct (group_scoped_cases v Hv) as [->|[->| ->]];
    run; fold_groups_named a d; rewrite Hg; reflexivity.
Qed.

Lemma missing_group_retrieve v key a qp vd ah d now :
  v ∈ group_scoped →
  groups_named d (user_username a) = [] →
  serve v (DetailRoute key) (mkreq GET (Authenticated a) qp vd ah) d now =
  (server_error (DoesNotExist Group),
   {| db := d; clock := now; queries := [Group];
      self := instantiate v (mkreq GET (Authenticated a) qp vd ah) (Some key) |}).
Proof.
  intros Hv Hg.
  destruct (group_scoped_cases v Hv) as [->|[->| ->]];
    run; fold_groups_named a d; rewrite Hg; reflexivity.
Qed.

(** C2, as the code has it.  When no group is named after the authenticated
    requesting user, listing or retrieving providers, identities or sizes
    raises [Group.DoesNotExist] at the group lookup; the exception handler of
    the framework does not handle that exception, and the request ends as a
    server error (500), not as 404. *)
Theorem missing_group_is_server_error v a qp vd ah d now :
  v ∈ group_scoped →
  (∀ g, g ∈ tables d Group → field "name" g ≠ VStr (user_username a)) →
  (serve v ListRoute (mkreq GET (Authenticated a) qp vd ah) d now).1
    = server_error (DoesNotExist Group)
  ∧ (∀ key, (serve v (DetailRoute key) (mkreq GET (Authenticated a) qp vd ah) d now).1
            = server_error (DoesNotExist Group))
  ∧ exception_handler ah (DoesNotExist Group) = None
  ∧ status_code (server_error (DoesNotExist Group)) = 500.
Proof.
  intros Hv Hg. apply groups_named_nil in Hg.
  split; [|split; [|split; reflexivity]].
  - rewrite missing_group_list by done. reflexivity.
  - intros key. rewrite missing_group_retrieve by done. reflexivity.
Qed.

Lemma missing_group_is_server_error_witness :
  ProviderViewSet ∈ group_scoped
  ∧ (∀ g, g ∈ tables demo_db Group → field "name" g ≠ VStr (user_username carol))
  ∧ (serve ProviderViewSet ListRoute (mkreq GET (Authenticated carol) ∅ None true)
       demo_db 100).1 = server_error (DoesNotExist Group).
Proof.
  assert (Hv : ProviderViewSet ∈ group_scoped) by (unfold group_scoped; left).
  assert (Hg : ∀ g, g ∈ tables demo_db Group
                    → field "name" g ≠ VStr (user_username carol)).
  { intros g Hin. cbn [tables demo_db] in Hin.
    rewrite !elem_of_cons, elem_of_nil in Hin.
    destruct Hin as [->|[->|[]]]; vm_compute; discriminate. }
  split; [exact Hv|]. split; [exact Hg|].
  exact (proj1 (missing_group_is_server_error ProviderViewSet carol ∅ None true
                  demo_db 100 Hv Hg)).
Defined.

(** C2, as stated, fails: carol is authenticated and no group is named
    after her, and her provider listing is answered 500, not 404. *)
Lemma missing_group_not_surfaced_as_404 :
  groups_named demo_db (user_username carol) = []
  ∧ status_code (serve ProviderViewSet ListRoute (get_as (Authenticated carol))
                   demo_db 100).1 = 500
  ∧ status_code (serve ProviderViewSet ListRoute (get_as (Authenticated carol))
                   demo_db 100).1 ≠ 404.
Proof. vm_compute. repeat split; discriminate. Qed.

(** ** The default permission policy *)

(** C3.  On every handler other than Tag and Provider the permission check
    lets every authenticated user through, whatever the verb, and an
    unauthenticated POST, PUT, PATCH or DELETE is rejected with
    [NotAuthenticated] (401, or 403 without an authentication header) before
    anything is queried or written. *)
Theorem default_permission_policy v rt m qp vd ah d now :
  v ≠ TagViewSet → v ≠ ProviderViewSet →
  m ∈ [POST; PUT; PATCH; DELETE] →
  (∀ m' a, check_permissions
             (initial_state v rt (mkreq m' (Authenticated a) qp vd ah) d now)
           = (Return (),
              initial_state v rt (mkreq m' (Authenticated a) qp vd ah) d now))
  ∧ serve v rt (mkreq m AnonymousUser qp vd ah) d now
    = ({| status_code := if ah then 401 else 403; data := Detail NotAuthenticated |},
       initial_state v rt (mkreq m AnonymousUser qp vd ah) d now).
Proof.
  intros Ht Hp Hm. split.
  - intros m' a. destruct v; try done; destruct m'; reflexivity.
  - rewrite !elem_of_cons, elem_of_nil in Hm.
    destruct Hm as [->|[->|[->|[->|[]]]]]; destruct v; try done; reflexivity.
Qed.

Lemma default_permission_policy_witness :
  QuotaViewSet ≠ TagViewSet ∧ QuotaViewSet ≠ ProviderViewSet
  ∧ POST ∈ [POST; PUT; PATCH; DELETE]
  ∧ serve QuotaViewSet ListRoute (mkreq POST AnonymousUser ∅ (Some ∅) true) demo_db 100
    = ({| status_code := 401; data := Detail NotAuthenticated |},
       initial_state QuotaViewSet ListRoute (mkreq POST AnonymousUser ∅ (Some ∅) true)
         demo_db 100).
Proof.
  assert (H1 : QuotaViewSet ≠ TagViewSet) by discriminate.
  assert (H2 : QuotaViewSet ≠ ProviderViewSet) by discriminate.
  assert (H3 : POST ∈ [POST; PUT; PATCH; DELETE]) by left.
  split; [exact H1|]. split; [exact H2|]. split; [exact H3|].
  exact (proj2 (default_permission_policy QuotaViewSet ListRoute POST ∅ (Some ∅) true
                  demo_db 100 H1 H2 H3)).
Defined.

(** ** Tags *)

(** C4.  A Tag created by an authenticated user is stored with that user in
    its [user] column, whatever the validated payload holds, a [user] or an
    [owner] entry included. *)
Theorem tag_create_stamps_requesting_user a qp (payload : row) ah d now :
  ∃ r : row,
    serve TagViewSet ListRoute (mkreq POST (Authenticated a) qp (Some payload) ah) d now
    = ({| status_code := 201; data := One TagSerializer r |},
       {| db := set_table Tag (tables d Tag ++ [r]) d; clock := now; queries := [];
          self := instantiate TagViewSet
                    (mkreq POST (Authenticated a) qp (Some payload) ah) None |})
    ∧ field "user" r = VInt (user_pk a).
Proof.
  exists (<["id" := VInt (next_pk (tables d Tag))]>
            ({["user" := VInt (user_pk a)]} ∪ payload)).
  split; [reflexivity|].
  unfold field. rewrite lookup_insert_ne by done.
  erewrite lookup_union_Some_l; [reflexivity|]. apply lookup_singleton_eq.
Qed.

Lemma exact_id_Tag v d r : exact ["id"] v d Tag r = value_eq v (pk r) || false.
Proof. reflexivity. Qed.

Lemma with_pk_Tag_deleted d key t :
  with_pk d Tag key = [t] →
  with_pk (set_table Tag (filter (λ x, pk x ≠ pk t) (tables d Tag)) d) Tag key = [].
Proof.
  intros H. unfold with_pk in *.
  cbn [qs_rows qs_filter qs_model objects tables set_table forallb] in *.
  rewrite fn_lookup_insert.
  destruct (filter _ (filter _ _)) as [|x l] eqn:E; [done|]. exfalso.
  assert (Hx : x ∈ x :: l) by left. rewrite <- E in Hx.
  apply list_elem_of_filter in Hx as [HP Hx].
  apply list_elem_of_filter in Hx as [HQ Hx].
  assert (Hin : x ∈ [t]).
  { rewrite <- H. apply list_elem_of_filter. split; [|done].
    rewrite exact_id_Tag in *. exact HP. }
  apply list_elem_of_singleton in Hin. subst x. by apply HQ.
Qed.

Ltac fold_with_pk d m key :=
  change (qs_rows (qs_filter [exact ["id"] (VInt key)] (objects m)) d)
    with (with_pk d m key).

Lemma tag_destroy_by_admin adm key t qp vd ah d now :
  user_is_staff adm = true →
  with_pk d Tag key = [t] →
  serve TagViewSet (DetailRoute key) (mkreq DELETE (Authenticated adm) qp vd ah) d now
  = ({| status_code := 204; data := NoContent |},
     {| db := set_table Tag (filter (λ x, pk x ≠ pk t) (tables d Tag)) d;
        clock := now; queries := [Tag];
        self := set_permission_classes [IsAdminUser]
                  (instantiate TagViewSet
                     (mkreq DELETE (Authenticated adm) qp vd ah) (Some key)) |}).
Proof.
  intros Hs Ht. destruct adm as [k n st]; simpl in Hs; subst st.
  run. fold_with_pk d Tag key. rewrite Ht. reflexivity.
Qed.

Lemma tag_retrieve_missing u key qp vd ah d now :
  with_pk d Tag key = [] →
  (serve TagViewSet (DetailRoute key) (mkreq GET u qp vd ah) d now).1
  = {| status_code := 404; data := Detail Http404 |}.
Proof.
  intros Ht. run. fold_with_pk d Tag key. rewrite Ht. reflexivity.
Qed.

(** C5.  On the Tag handler DELETE and PUT pass the permission check for
    staff only: an authenticated user who is not staff is answered 403 and an
    anonymous one 401 (or 403), with the database untouched.  A staff user's
    DELETE of an existing tag is answered 204, removes the row, and any later
    retrieve of that id is answered 404.  POST and PATCH pass the permission
    check for every authenticated user and are refused to the anonymous one. *)
Theorem tag_write_permissions a adm key t rt qp vd ah d now :
  user_is_staff a = false →
  user_is_staff adm = true →
  with_pk d Tag key = [t] →
  Forall (λ m,
      (serve TagViewSet rt (mkreq m (Authenticated a) qp vd ah) d now).1
        = {| status_code := 403; data := Detail PermissionDenied |}
      ∧ db (serve TagViewSet rt (mkreq m (Authenticated a) qp vd ah) d now).2 = d
      ∧ (serve TagViewSet rt (mkreq m AnonymousUser qp vd ah) d now).1
        = {| status_code := if ah then 401 else 403; data := Detail NotAuthenticated |}
      ∧ db (serve TagViewSet rt (mkreq m AnonymousUser qp vd ah) d now).2 = d)
    [DELETE; PUT]
  ∧ (serve TagViewSet (DetailRoute key) (mkreq DELETE (Authenticated adm) qp vd ah) d now).1
    = {| status_code := 204; data := NoContent |}
  ∧ (∀ u qp' vd' ah' now',
       (serve TagViewSet (DetailRoute key) (mkreq GET u qp' vd' ah')
          (db (serve TagViewSet (DetailRoute key)
                 (mkreq DELETE (Authenticated adm) qp vd ah) d now).2) now').1
       = {| status_code := 404; data := Detail Http404 |})
  ∧ Forall (λ m,
      check_permissions
        (initial_state TagViewSet rt (mkreq m (Authenticated a) qp vd ah) d now)
      = (Return (),
         initial_state TagViewSet rt (mkreq m (Authenticated a) qp vd ah) d now)
      ∧ (serve TagViewSet rt (mkreq m AnonymousUser qp vd ah) d now).1
        = {| status_code := if ah then 401 else 403; data := Detail NotAuthenticated |})
    [POST; PATCH].
Proof.
  intros Ha Hadm Ht. split; [|split; [|split]].
  - destruct a as [k n st]; simpl in Ha; subst st.
    repeat constructor.
  - rewrite (tag_destroy_by_admin adm key t) by done. reflexivity.
  - intros u qp' vd' ah' now'.
    rewrite (tag_destroy_by_admin adm key t) by done. cbn [snd db].
    apply tag_retrieve_missing, with_pk_Tag_deleted, Ht.
  - repeat constructor.
Qed.

Lemma tag_write_permissions_witness :
  user_is_staff alice = false
  ∧ user_is_staff root = true
  ∧ with_pk demo_db Tag 7 = [mkrow [("id", VInt 7); ("name", VStr "x"); ("user", VInt 2)]]
  ∧ (serve TagViewSet (DetailRoute 7) (mkreq DELETE (Authenticated root) ∅ None true)
       demo_db 100).1 = {| status_code := 204; data := NoContent |}.
Proof.
  assert (H1 : user_is_staff alice = false) by reflexivity.
  assert (H2 : user_is_staff root = true) by reflexivity.
  assert (H3 : with_pk demo_db Tag 7
               = [mkrow [("id", VInt 7); ("name", VStr "x"); ("user", VInt 2)]])
    by (vm_compute; reflexivity).
  split; [exact H1|]. split; [exact H2|]. split; [exact H3|].
  exact (proj1 (proj2 (tag_write_permissions alice root 7 _ (DetailRoute 7) ∅ None true
                         demo_db 100 H1 H2 H3))).
Defined.

(** ** Providers *)

(** C6.  No POST, PUT, PATCH or DELETE to the Provider handler has a handler
    to run, on any route and for any requester: the request is answered 401,
    403 or 405 (405 for staff, who pass every permission check), nothing is
    queried and the database is left as it was. *)
Theorem provider_rejects_write_verbs m u adm rt qp vd ah d now :
  m ∈ [POST; PUT; PATCH; DELETE] →
  user_is_staff adm = true →
  handler ProviderViewSet rt m = None
  ∧ status_code (serve ProviderViewSet rt (mkreq m u qp vd ah) d now).1 ∈ [401; 403; 405]
  ∧ db (serve ProviderViewSet rt (mkreq m u qp vd ah) d now).2 = d
  ∧ queries (serve ProviderViewSet rt (mkreq m u qp vd ah) d now).2 = []
  ∧ (serve ProviderViewSet rt (mkreq m (Authenticated adm) qp vd ah) d now).1
    = {| status_code := 405; data := Detail MethodNotAllowed |}.
Proof.
  intros Hm Hadm. destruct adm as [k n st]; simpl in Hadm; subst st.
  rewrite !elem_of_cons, elem_of_nil in Hm.
  destruct Hm as [->|[->|[->|[->|[]]]]];
    (split; [reflexivity|]);
    (split; [destruct u as [|[k' n' []]], ah; vm_compute; set_solver|]);
    (split; [destruct u as [|[k' n' []]]; reflexivity|]);
    (split; [destruct u as [|[k' n' []]]; reflexivity|]);
    reflexivity.
Qed.

Lemma provider_rejects_write_verbs_witness :
  DELETE ∈ [POST; PUT; PATCH; DELETE]
  ∧ user_is_staff root = true
  ∧ (serve ProviderViewSet (DetailRoute 20) (mkreq DELETE (Authenticated root) ∅ None true)
       demo_db 100).1 = {| status_code := 405; data := Detail MethodNotAllowed |}.
Proof.
  assert (H1 : DELETE ∈ [POST; PUT; PATCH; DELETE]) by (do 3 right; left).
  assert (H2 : user_is_staff root = true) by reflexivity.
  split; [exact H1|]. split; [exact H2|].
  exact (proj2 (proj2 (proj2 (proj2
    (provider_rejects_write_verbs DELETE (Authenticated root) root (DetailRoute 20)
       ∅ None true demo_db 100 H1 H2))))).
Defined.

(** ** Volumes *)

Lemma apply_filter_model qp qs f : qs_model (apply_filter qp qs f) = qs_model qs.
Proof. unfold apply_filter. destruct (qp !! param f) as [[]|]; reflexivity. Qed.

Lemma apply_filter_elem qp qs f d r :
  r ∈ qs_rows (apply_filter qp qs f) d →
  r ∈ qs_rows qs d
  ∧ ∀ v, qp !! param f = Some v → v ≠ VNone →
         lookup_condition (lookup f) (name f) v d (qs_model qs) r = true.
Proof.
  unfold apply_filter. destruct (qp !! param f) as [v|] eqn:E.
  - destruct v; try (intros H; split; [exact H | intros; congruence]);
      intros H; apply qs_rows_filter in H as [H1 H2];
      cbn [forallb] in H2; rewrite andb_true_r in H2;
      (split; [exact H1 | intros v' Hv' _; congruence]).
  - intros H; split; [exact H | intros; congruence].
Qed.

Lemma serve_volume_list a qp vd ah d now :
  (serve VolumeViewSet ListRoute (mkreq GET (Authenticated a) qp vd ah) d now).1
  = {| status_code := 200;
       data := Many VolumeSerializer
                 (qs_rows (DjangoFilterBackend VolumeViewSet qp
                             (qs_filter [only_current_at now;
                                         exact ["created_by"] (VInt (user_pk a))]
                                        (objects Volume))) d) |}.
Proof. reflexivity. Qed.

Lemma value_le_number x y :
  value_le x y = true →
  ∃ p q, to_number x = Some p ∧ to_number y = Some q ∧ (p ≤ q)%Qc.
Proof.
  unfold value_le. destruct (to_number x) as [p|], (to_number y) as [q|]; try done.
  intros H. apply bool_decide_eq_true in H. eauto.
Qed.

(** C7.  With [min_size] and [max_size] given as numbers [m] and [n], every
    volume of a Volume list has a numeric size [s] with [m ≤ s ≤ n]. *)
Theorem volume_list_within_size_range u qp vd ah d now (vm vn : value) (m n : Qc) (x : row) :
  qp !! "min_size" = Some vm → to_number vm = Some m →
  qp !! "max_size" = Some vn → to_number vn = Some n →
  x ∈ listed (serve VolumeViewSet ListRoute (mkreq GET u qp vd ah) d now).1 →
  ∃ s, to_number (field "size" x) = Some s ∧ (m ≤ s)%Qc ∧ (s ≤ n)%Qc.
Proof.
  intros Hm Hvm Hn Hvn Hx. destruct u as [|a].
  - exfalso. apply elem_of_nil in Hx. exact Hx.
  - rewrite serve_volume_list in Hx. cbn [listed data fst] in Hx.
    unfold DjangoFilterBackend in Hx. cbn [foldl filters VolumeFilter] in Hx.
    apply apply_filter_elem in Hx as [Hx Hmax].
    apply apply_filter_elem in Hx as [_ Hmin].
    specialize (Hmax vn Hn). specialize (Hmin vm Hm).
    rewrite !apply_filter_model in *.
    assert (Nm : vm ≠ VNone) by (intros ->; discriminate).
    assert (Nn : vn ≠ VNone) by (intros ->; discriminate).
    specialize (Hmax Nn). specialize (Hmin Nm).
    cbn in Hmax, Hmin. rewrite orb_false_r in Hmax, Hmin.
    apply value_le_number in Hmax as (p & q & Hp & Hq & Hpq).
    apply value_le_number in Hmin as (p' & q' & Hp' & Hq' & Hpq').
    exists p. split; [exact Hp|]. split; congruence.
Qed.

Lemma volume_list_within_size_range_witness :
  (<["min_size" := VDec (Q2Qc (3 # 2))]> (<["max_size" := VInt 10]> ∅) : gmap string value)
    !! "min_size" = Some (VDec (Q2Qc (3 # 2)))
  ∧ to_number (VDec (Q2Qc (3 # 2))) = Some (Q2Qc (3 # 2))
  ∧ (<["min_size" := VDec (Q2Qc (3 # 2))]> (<["max_size" := VInt 10]> ∅) : gmap string value)
    !! "max_size" = Some (VInt 10)
  ∧ to_number (VInt 10) = Some (Qc_of_Z 10)
  ∧ mkrow [("id", VInt 40); ("size", VInt 5); ("created_by", VInt 1);
           ("provider", VInt 20); ("start_date", VInt 0)]
    ∈ listed (serve VolumeViewSet ListRoute
                (mkreq GET (Authenticated alice)
                   (<["min_size" := VDec (Q2Qc (3 # 2))]> (<["max_size" := VInt 10]> ∅))
                   None true) demo_db 100).1
  ∧ ∃ s, to_number (field "size"
                      (mkrow [("id", VInt 40); ("size", VInt 5); ("created_by", VInt 1);
                              ("provider", VInt 20); ("start_date", VInt 0)])) = Some s
         ∧ (Q2Qc (3 # 2) ≤ s)%Qc ∧ (s ≤ Qc_of_Z 10)%Qc.
Proof.
  assert (H1 : (<["min_size" := VDec (Q2Qc (3 # 2))]> (<["max_size" := VInt 10]> ∅)
                : gmap string value) !! "min_size" = Some (VDec (Q2Qc (3 # 2))))
    by (vm_compute; reflexivity).
  assert (H2 : to_number (VDec (Q2Qc (3 # 2))) = Some (Q2Qc (3 # 2))) by reflexivity.
  assert (H3 : (<["min_size" := VDec (Q2Qc (3 # 2))]> (<["max_size" := VInt 10]> ∅)
                : gmap string value) !! "max_size" = Some (VInt 10))
    by (vm_compute; reflexivity).
  assert (H4 : to_number (VInt 10) = Some (Qc_of_Z 10)) by reflexivity.
  assert (H5 : mkrow [("id", VInt 40); ("size", VInt 5); ("created_by", VInt 1);
                      ("provider", VInt 20); ("start_date", VInt 0)]
               ∈ listed (serve VolumeViewSet ListRoute
                           (mkreq GET (Authenticated alice)
                              (<["min_size" := VDec (Q2Qc (3 # 2))]>
                                 (<["max_size" := VInt 10]> ∅))
                              None true) demo_db 100).1)
    by (vm_compute; left).
  split; [exact H1|]. split; [exact H2|]. split; [exact H3|]. split; [exact H4|].
  split; [exact H5|].
  exact (volume_list_within_size_range _ _ None true demo_db 100 _ _ _ _ _ H1 H2 H3 H4 H5).
Defined.

(** ** The related-list actions *)

Lemma visible_project_elem d now u key p :
  p ∈ visible_project d now u key ↔
  p ∈ tables d Project ∧ value_eq (VInt key) (pk p) = true
  ∧ owner_named d p (username u) ∧ only_current_at now d Project p = true.
Proof.
  unfold visible_project. rewrite !qs_rows_filter.
  cbn [qs_rows qs_model objects qs_filter forallb].
  rewrite !andb_true_r, andb_true_iff, exact_owner_name.
  change (exact ["id"] (VInt key) d Project p) with (value_eq (VInt key) (pk p) || false).
  rewrite orb_false_r. tauto.
Qed.

(** A project that is not owned by the user, or not active, is not visible. *)
Lemma visible_project_nil d now u key :
  (∀ p, p ∈ tables d Project → value_eq (VInt key) (pk p) = true →
        ¬ (owner_named d p (username u) ∧ only_current_at now d Project p = true)) →
  visible_project d now u key = [].
Proof.
  intros H. destruct (visible_project d now u key) as [|p l] eqn:E; [done|].
  exfalso. assert (Hp : p ∈ visible_project d now u key) by (rewrite E; left).
  apply visible_project_elem in Hp as (Hin & Hk & Ho & Ha). exact (H p Hin Hk (conj Ho Ha)).
Qed.

Lemma project_related_list_not_found u key action qp vd ah d now :
  action ∈ ["instances"; "volumes"] →
  visible_project d now u key = [] →
  serve ProjectViewSet (DetailAction action key) (mkreq GET u qp vd ah) d now
  = ({| status_code := 404; data := Detail Http404 |},
     {| db := d; clock := now; queries := [Project];
        self := instantiate ProjectViewSet (mkreq GET u qp vd ah) (Some key) |}).
Proof.
  intros Ha Hv. rewrite !elem_of_cons, elem_of_nil in Ha.
  destruct Ha as [->|[->|[]]]; run;
    change (qs_rows (qs_filter [exact ["id"] (VInt key)]
              (qs_filter [only_current_at now;
                          exact ["owner"; "name"] (VStr (username u))]
                         (objects Project))) d)
      with (visible_project d now u key);
    rewrite Hv; reflexivity.
Qed.

(** C8.  The [instances] and [volumes] actions of a project resolve the
    project under the user's visibility first: when no project with the given
    id is both owned by the group named after the user and currently active,
    the answer is 404 and the only query run is the one on projects. *)
Theorem project_related_list_resolves_parent_first u key action qp vd ah d now :
  action ∈ ["instances"; "volumes"] →
  (∀ p, p ∈ tables d Project → value_eq (VInt key) (pk p) = true →
        ¬ (owner_named d p (username u) ∧ only_current_at now d Project p = true)) →
  serve ProjectViewSet (DetailAction action key) (mkreq GET u qp vd ah) d now
  = ({| status_code := 404; data := Detail Http404 |},
     {| db := d; clock := now; queries := [Project];
        self := instantiate ProjectViewSet (mkreq GET u qp vd ah) (Some key) |}).
Proof.
  intros Ha Hv. apply project_related_list_not_found; [exact Ha|].
  apply visible_project_nil, Hv.
Qed.

Lemma project_related_list_resolves_parent_first_witness :
  "instances" ∈ ["instances"; "volumes"]
  ∧ (∀ p, p ∈ tables demo_db Project → value_eq (VInt 2) (pk p) = true →
          ¬ (owner_named demo_db p (username (Authenticated alice))
             ∧ only_current_at 100 demo_db Project p = true))
  ∧ serve ProjectViewSet (DetailAction "instances" 2)
      (mkreq GET (Authenticated alice) ∅ None true) demo_db 100
    = ({| status_code := 404; data := Detail Http404 |},
       {| db := demo_db; clock := 100; queries := [Project];
          self := instantiate ProjectViewSet
                    (mkreq GET (Authenticated alice) ∅ None true) (Some 2) |}).
Proof.
  assert (H1 : "instances" ∈ ["instances"; "volumes"]) by left.
  assert (H2 : ∀ p, p ∈ tables demo_db Project → value_eq (VInt 2) (pk p) = true →
                    ¬ (owner_named demo_db p (username (Authenticated alice))
                       ∧ only_current_at 100 demo_db Project p = true)).
  { intros p Hin Hk [(g & Hg & Hpk & _ & Hname) _].
    cbn [tables demo_db] in Hin, Hg.
    rewrite !elem_of_cons in Hin. rewrite elem_of_nil in Hin.
    rewrite !elem_of_cons in Hg. rewrite elem_of_nil in Hg.
    destruct Hin as [->|[->|[->|[]]]]; try (vm_compute in Hk; discriminate).
    destruct Hg as [->|[->|[]]].
    - vm_compute in Hpk. discriminate.
    - vm_compute in Hname. discriminate. }
  split; [exact H1|]. split; [exact H2|].
  exact (project_related_list_resolves_parent_first (Authenticated alice) 2 "instances"
           ∅ None true demo_db 100 H1 H2).
Defined.

(** The project is fetched before its relation when it is visible. *)
Example project_instances_of_visible_parent :
  queries (serve ProjectViewSet (DetailAction "instances" 1)
             (get_as (Authenticated alice)) demo_db 100).2 = [Project; Instance].
Proof. vm_compute. reflexivity. Qed.

(** [ProviderViewSet] derives from [ReadOnlyModelViewSet]: [ModelViewSet] is
    not among its classes, [GenericViewSet] is. *)
Lemma super_ModelViewSet_of_ProviderViewSet attr :
  super ModelViewSet ProviderViewSet attr = None.
Proof. reflexivity. Qed.

Lemma super_GenericViewSet_of_ProviderViewSet :
  super GenericViewSet ProviderViewSet "get_permissions" = Some (Some APIView).
Proof. reflexivity. Qed.

Lemma super_ModelViewSet_of_ProjectViewSet :
  super ModelViewSet ProjectViewSet "get_queryset" = Some (Some GenericAPIView).
Proof. reflexivity. Qed.

(** The [sizes] action answers no request with a list. *)
Lemma provider_sizes_never_lists u key qp vd ah d now :
  status_code (serve ProviderViewSet (DetailAction "sizes" key)
                 (mkreq GET u qp vd ah) d now).1 ≠ 200.
Proof.
  destruct u as [|a]; [destruct ah; discriminate|].
  run. fold_groups_named a d.
  destruct (groups_named d (user_username a)) as [|g [|g' l]]; try discriminate.
  match goal with
  | |- context [match ?q with [] => _ | _ => _ end] => destruct q as [|p [|p' l]]
  end; discriminate.
Qed.

(** C9, the code at a provider the user sees.  Provider 20 has the sizes 30
    and 31, of which 31 has ended, and the Size list shows alice size 30
    alone; the [sizes] action resolves provider 20 and then fails on
    [super(viewsets.ModelViewSet, self)] with a [TypeError], answered 500,
    where the specification has it return sizes 30 and 31. *)
Theorem provider_sizes_raises_TypeError :
  (serve ProviderViewSet (DetailAction "sizes" 20) (get_as (Authenticated alice))
     demo_db 100).1 = server_error TypeError
  ∧ queries (serve ProviderViewSet (DetailAction "sizes" 20) (get_as (Authenticated alice))
               demo_db 100).2 = [Group; Provider]
  ∧ pk <$> qs_rows (related_manager Provider "size_set" (mkrow [("id", VInt 20)])) demo_db
    = [VInt 30; VInt 31]
  ∧ pk <$> listed (serve SizeViewSet ListRoute (get_as (Authenticated alice)) demo_db 100).1
    = [VInt 30].
Proof. repeat split; vm_compute; reflexivity. Qed.

(** ** Image bookmarks *)

Lemma exact_bookmark_user v d r :
  exact ["user"] v d ImageBookmark r = value_eq v (field "user" r) || false.
Proof. reflexivity. Qed.

Lemma serve_bookmark_list a qp vd ah d now :
  (serve ImageBookmarkViewSet ListRoute (mkreq GET (Authenticated a) qp vd ah) d now).1
  = {| status_code := 200;
       data := Many ImageBookmarkSerializer
                 (qs_rows (qs_filter [exact ["user"] (VInt (user_pk a))]
                                     (objects ImageBookmark)) d) |}.
Proof. reflexivity. Qed.

Lemma bookmark_listed_own a qp vd ah d now x :
  x ∈ listed (serve ImageBookmarkViewSet ListRoute
                (mkreq GET (Authenticated a) qp vd ah) d now).1 →
  value_eq (VInt (user_pk a)) (field "user" x) = true.
Proof.
  rewrite serve_bookmark_list. cbn [listed data fst]. rewrite qs_rows_filter.
  cbn [forallb qs_model objects]. rewrite exact_bookmark_user, orb_false_r, andb_true_r.
  tauto.
Qed.

Lemma bookmark_shown_own a key qp vd ah d now x :
  shown (serve ImageBookmarkViewSet (DetailRoute key)
           (mkreq GET (Authenticated a) qp vd ah) d now).1 = Some x →
  value_eq (VInt (user_pk a)) (field "user" x) = true.
Proof.
  run.
  match goal with
  | |- context [match ?q with [] => _ | _ => _ end] =>
      destruct q as [|y [|y' l]] eqn:E
  end; try discriminate.
  intros [= ->].
  assert (Hx : x ∈ [x]) by left. rewrite <- E in Hx.
  apply list_elem_of_filter in Hx as [_ Hx].
  apply list_elem_of_filter in Hx as [Hx _].
  cbn [forallb qs_model objects] in Hx.
  rewrite exact_bookmark_user, orb_false_r, andb_true_r in Hx. exact Hx.
Qed.

(** C10.  Creating an image bookmark stores the [user] of the validated
    payload, not the requesting user: with a payload naming another user the
    new row belongs to that user and is absent from the requesting user's own
    list, whose rows, like the row a retrieve shows, all carry the requesting
    user. *)
Theorem bookmark_create_keeps_payload_user a (v : Z) qp (payload : row) ah d now :
  payload !! "user" = Some (VInt v) →
  v ≠ user_pk a →
  ∃ r : row,
    serve ImageBookmarkViewSet ListRoute
      (mkreq POST (Authenticated a) qp (Some payload) ah) d now
    = ({| status_code := 201; data := One ImageBookmarkSerializer r |},
       {| db := set_table ImageBookmark (tables d ImageBookmark ++ [r]) d;
          clock := now; queries := [];
          self := instantiate ImageBookmarkViewSet
                    (mkreq POST (Authenticated a) qp (Some payload) ah) None |})
    ∧ field "user" r = VInt v
    ∧ (∀ qp' vd' ah' now',
         r ∉ listed (serve ImageBookmarkViewSet ListRoute
                       (mkreq GET (Authenticated a) qp' vd' ah')
                       (set_table ImageBookmark (tables d ImageBookmark ++ [r]) d)
                       now').1)
    ∧ (∀ d' x key qp' vd' ah' now',
         x ∈ listed (serve ImageBookmarkViewSet ListRoute
                       (mkreq GET (Authenticated a) qp' vd' ah') d' now').1
         ∨ shown (serve ImageBookmarkViewSet (DetailRoute key)
                    (mkreq GET (Authenticated a) qp' vd' ah') d' now').1 = Some x →
         value_eq (VInt (user_pk a)) (field "user" x) = true).
Proof.
  intros Hu Hne.
  exists (<["id" := VInt (next_pk (tables d ImageBookmark))]> (∅ ∪ payload)).
  assert (Hf : field "user" (<["id" := VInt (next_pk (tables d ImageBookmark))]>
                               (∅ ∪ payload)) = VInt v).
  { unfold field. rewrite lookup_insert_ne by done.
    rewrite (left_id_L ∅ (∪)), Hu. reflexivity. }
  split; [reflexivity|]. split; [exact Hf|]. split.
  - intros qp' vd' ah' now' Hin. apply bookmark_listed_own in Hin.
    rewrite Hf in Hin. apply value_eq_int in Hin. congruence.
  - intros d' x key qp' vd' ah' now' [H|H].
    + eapply bookmark_listed_own, H.
    + eapply bookmark_shown_own, H.
Qed.

Lemma bookmark_create_keeps_payload_user_witness :
  mkrow [("user", VInt 2); ("application", VInt 5)] !! "user" = Some (VInt 2)
  ∧ 2 ≠ user_pk alice
  ∧ ∃ r : row,
      (serve ImageBookmarkViewSet ListRoute
         (mkreq POST (Authenticated alice) ∅
            (Some (mkrow [("user", VInt 2); ("application", VInt 5)])) true)
         demo_db 100).1 = {| status_code := 201; data := One ImageBookmarkSerializer r |}
      ∧ field "user" r = VInt 2.
Proof.
  assert (H1 : mkrow [("user", VInt 2); ("application", VInt 5)] !! "user"
               = Some (VInt 2)) by (vm_compute; reflexivity).
  assert (H2 : 2 ≠ user_pk alice) by discriminate.
  split; [exact H1|]. split; [exact H2|].
  destruct (bookmark_create_keeps_payload_user alice 2 ∅
              (mkrow [("user", VInt 2); ("application", VInt 5)]) true demo_db 100 H1 H2)
    as (r & Hs & Hf & _).
  exists r. split; [|exact Hf]. rewrite Hs. reflexivity.
Defined.

(** * Further properties of the handlers *)

(** As [run], with the declared filters left in place. *)
Ltac run_keeping_filters :=
  cbv -[qs_filter related_manager objects exact gte lte gt in_ only_current_at
        DjangoFilterBackend visible_providers
        tables links app set_table next_pk field pk
        union insert empty filter fmap lookup qs_rows qs_model singletonM
        Z.add Z.max username user_pk with_pk groups_named visible_project
        Qobject String.eq_dec String.countable].

Lemma value_eq_bool b x : value_eq (VBool b) x = true ↔ x = VBool b.
Proof.
  unfold value_eq; simpl. rewrite bool_decide_eq_true. split; congruence.
Qed.

Lemma value_eq_int_l k x :
  value_eq (VInt k) x = true ↔ to_number x = Some (Qc_of_Z k).
Proof.
  unfold value_eq; cbn [to_number]. destruct x; cbn [to_number];
    rewrite bool_decide_eq_true; split; congruence.
Qed.

Lemma DjangoFilterBackend_foldl_model qp fs qs :
  qs_model (foldl (apply_filter qp) qs fs) = qs_model qs.
Proof.
  revert qs. induction fs as [|f fs IH]; intros qs; [reflexivity|].
  cbn [foldl]. rewrite IH. apply apply_filter_model.
Qed.

Lemma DjangoFilterBackend_model v qp qs :
  qs_model (DjangoFilterBackend v qp qs) = qs_model qs.
Proof. apply DjangoFilterBackend_foldl_model. Qed.

Lemma DjangoFilterBackend_foldl_subset qp fs qs d x :
  x ∈ qs_rows (foldl (apply_filter qp) qs fs) d → x ∈ qs_rows qs d.
Proof.
  revert qs. induction fs as [|f fs IH]; intros qs; [done|].
  cbn [foldl]. intros H. apply IH in H. apply apply_filter_elem in H. tauto.
Qed.

(** The declared filters only ever narrow a query set. *)
Lemma DjangoFilterBackend_subset v qp qs d x :
  x ∈ qs_rows (DjangoFilterBackend v qp qs) d → x ∈ qs_rows qs d.
Proof. apply DjangoFilterBackend_foldl_subset. Qed.

Lemma DjangoFilterBackend_absent v qp qs :
  (∀ f, f ∈ filters v → qp !! param f = None) →
  DjangoFilterBackend v qp qs = qs.
Proof.
  unfold DjangoFilterBackend. generalize (filters v). intros fs. revert qs.
  induction fs as [|f fs IH]; intros qs H; [reflexivity|].
  cbn [foldl]. unfold apply_filter at 2. rewrite (H f) by left.
  apply IH. intros f' Hf'. apply H. by right.
Qed.

Lemma user_scoped_cases v :
  v ∈ user_scoped →
  v = VolumeViewSet ∨ v = InstanceViewSet ∨ v = ImageBookmarkViewSet.
Proof. unfold user_scoped. rewrite !elem_of_cons, elem_of_nil. tauto. Qed.

Lemma serve_user_scoped_list v a qp vd ah d now :
  v ∈ user_scoped →
  (serve v ListRoute (mkreq GET (Authenticated a) qp vd ah) d now).1
  = {| status_code := 200;
       data := Many (class_serializer_class v)
                 (qs_rows (DjangoFilterBackend v qp
                    (qs_filter
                       (match v with
                        | ImageBookmarkViewSet => []
                        | _ => [only_current_at now]
                        end ++ [exact [user_column v] (VInt (user_pk a))])
                       (objects (model_of v)))) d) |}.
Proof. intros Hv. destruct (user_scoped_cases v Hv) as [->|[->| ->]]; reflexivity. Qed.

Lemma exact_user_column v k d x :
  v ∈ user_scoped →
  exact [user_column v] (VInt k) d (model_of v) x
  = value_eq (VInt k) (field (user_column v) x) || false.
Proof. intros Hv. destruct (user_scoped_cases v Hv) as [->|[->| ->]]; reflexivity. Qed.

(** X1.  Without filter parameters, the Volume, Instance and ImageBookmark
    lists show an authenticated user exactly the rows of the table that carry
    that user ([created_by], or [user] for bookmarks) and, for volumes and
    instances, are currently active. *)
Theorem user_scoped_list_shows_own_rows v a qp vd ah d now x :
  v ∈ user_scoped →
  (∀ f, f ∈ filters v → qp !! param f = None) →
  x ∈ listed (serve v ListRoute (mkreq GET (Authenticated a) qp vd ah) d now).1
  ↔ x ∈ tables d (model_of v)
    ∧ value_eq (VInt (user_pk a)) (field (user_column v) x) = true
    ∧ (v = ImageBookmarkViewSet ∨ only_current_at now d (model_of v) x = true).
Proof.
  intros Hv Hq. rewrite serve_user_scoped_list by done. cbn [listed data fst].
  rewrite DjangoFilterBackend_absent by done.
  rewrite qs_rows_filter. cbn [qs_rows qs_model objects].
  rewrite forallb_app. cbn [forallb]. rewrite exact_user_column by done.
  rewrite orb_false_r, andb_true_r, andb_true_iff.
  destruct (user_scoped_cases v Hv) as [->|[->| ->]]; cbn [forallb];
    rewrite ?andb_true_r; intuition congruence.
Qed.

Lemma user_scoped_list_shows_own_rows_witness :
  InstanceViewSet ∈ user_scoped
  ∧ (∀ f, f ∈ filters InstanceViewSet → (∅ : gmap string value) !! param f = None)
  ∧ mkrow [("id", VInt 50); ("created_by", VInt 1); ("start_date", VInt 0)]
    ∈ listed (serve InstanceViewSet ListRoute
                (mkreq GET (Authenticated alice) ∅ None true) site_db 100).1.
Proof.
  assert (H1 : InstanceViewSet ∈ user_scoped) by (unfold user_scoped; right; left).
  assert (H2 : ∀ f, f ∈ filters InstanceViewSet
                    → (∅ : gmap string value) !! param f = None)
    by (intros f _; apply lookup_empty).
  split; [exact H1|]. split; [exact H2|].
  apply (proj2 (user_scoped_list_shows_own_rows InstanceViewSet alice ∅ None true
                  site_db 100 _ H1 H2)).
  split; [vm_compute; left|]. split; [vm_compute; reflexivity|].
  right. vm_compute. reflexivity.
Defined.

Lemma apply_filter_present qp qs f v :
  qp !! param f = Some v → v ≠ VNone →
  apply_filter qp qs f = qs_filter [lookup_condition (lookup f) (name f) v] qs.
Proof. intros H Hv. unfold apply_filter. rewrite H. destruct v; done. Qed.

Lemma apply_filter_absent qp qs f :
  qp !! param f = None → apply_filter qp qs f = qs.
Proof. intros H. unfold apply_filter. rewrite H. reflexivity. Qed.

(** X2.  With [min_size] and [max_size] given and no [provider__id], a
    volume is listed if and only if it is the user's, currently active, and
    its size lies between the two bounds, both included. *)
Theorem volume_list_iff_in_size_range a qp vd ah d now vm vn x :
  qp !! "provider__id" = None →
  qp !! "min_size" = Some vm → vm ≠ VNone →
  qp !! "max_size" = Some vn → vn ≠ VNone →
  x ∈ listed (serve VolumeViewSet ListRoute
                (mkreq GET (Authenticated a) qp vd ah) d now).1
  ↔ x ∈ tables d Volume
    ∧ only_current_at now d Volume x = true
    ∧ value_eq (VInt (user_pk a)) (field "created_by" x) = true
    ∧ value_le vm (field "size" x) = true
    ∧ value_le (field "size" x) vn = true.
Proof.
  intros Hp Hm Nm Hn Nn. rewrite serve_volume_list. cbn [listed data fst].
  unfold DjangoFilterBackend. cbn [foldl filters VolumeFilter].
  rewrite (apply_filter_absent qp _ (filter_field "provider__id" ["provider"; "id"]))
    by exact Hp.
  rewrite (apply_filter_present qp _ (NumberFilter "min_size" "size" Gte) vm)
    by done.
  rewrite (apply_filter_present qp _ (NumberFilter "max_size" "size" Lte) vn)
    by done.
  rewrite !qs_rows_filter. cbn [qs_rows qs_model objects qs_filter forallb].
  cbn [lookup_condition lookup name NumberFilter].
  change (lte ["size"] vn d Volume x) with (value_le (field "size" x) vn || false).
  change (gte ["size"] vm d Volume x) with (value_le vm (field "size" x) || false).
  change (exact ["created_by"] (VInt (user_pk a)) d Volume x)
    with (value_eq (VInt (user_pk a)) (field "created_by" x) || false).
  rewrite !orb_false_r, !andb_true_r, andb_true_iff. tauto.
Qed.

Lemma volume_list_iff_in_size_range_witness :
  (<["min_size" := VInt 10]> (<["max_size" := VInt 30]> ∅) : gmap string value)
    !! "provider__id" = None
  ∧ (<["min_size" := VInt 10]> (<["max_size" := VInt 30]> ∅) : gmap string value)
    !! "min_size" = Some (VInt 10)
  ∧ VInt 10 ≠ VNone
  ∧ (<["min_size" := VInt 10]> (<["max_size" := VInt 30]> ∅) : gmap string value)
    !! "max_size" = Some (VInt 30)
  ∧ VInt 30 ≠ VNone
  ∧ mkrow [("id", VInt 41); ("size", VInt 20); ("created_by", VInt 1);
           ("provider", VInt 20); ("start_date", VInt 0)]
    ∈ listed (serve VolumeViewSet ListRoute
                (mkreq GET (Authenticated alice)
                   (<["min_size" := VInt 10]> (<["max_size" := VInt 30]> ∅)) None true)
                demo_db 100).1.
Proof.
  assert (H1 : (<["min_size" := VInt 10]> (<["max_size" := VInt 30]> ∅)
                : gmap string value) !! "provider__id" = None)
    by (vm_compute; reflexivity).
  assert (H2 : (<["min_size" := VInt 10]> (<["max_size" := VInt 30]> ∅)
                : gmap string value) !! "min_size" = Some (VInt 10))
    by (vm_compute; reflexivity).
  assert (H3 : VInt 10 ≠ VNone) by discriminate.
  assert (H4 : (<["min_size" := VInt 10]> (<["max_size" := VInt 30]> ∅)
                : gmap string value) !! "max_size" = Some (VInt 30))
    by (vm_compute; reflexivity).
  assert (H5 : VInt 30 ≠ VNone) by discriminate.
  split; [exact H1|]. split; [exact H2|]. split; [exact H3|]. split; [exact H4|].
  split; [exact H5|].
  apply (proj2 (volume_list_iff_in_size_range alice _ None true demo_db 100 _ _ _
                  H1 H2 H3 H4 H5)).
  split; [vm_compute; right; left|]. repeat split; vm_compute; reflexivity.
Defined.

(** ** The handlers scoped by the eponymous group *)

Lemma exact_active d x : exact ["active"] (VBool true) d Provider x = true
                         ↔ field "active" x = VBool true.
Proof.
  change (exact ["active"] (VBool true) d Provider x)
    with (value_eq (VBool true) (field "active" x) || false).
  rewrite orb_false_r. apply value_eq_bool.
Qed.

Lemma visible_providers_elem d now g x :
  x ∈ qs_rows (visible_providers now g) d ↔
  x ∈ tables d Provider
  ∧ (pk g, pk x) ∈ links d Group "providers"
  ∧ only_current_at now d Provider x = true
  ∧ field "active" x = VBool true.
Proof.
  unfold visible_providers. rewrite qs_rows_filter.
  change (qs_rows (related_manager Group "providers" g) d)
    with (filter (λ x, (pk g, pk x) ∈ links d Group "providers") (tables d Provider)).
  rewrite list_elem_of_filter. cbn [qs_model related_manager forallb].
  change (from_option target Group (related_field Group "providers")) with Provider.
  rewrite andb_true_r, andb_true_iff, exact_active. tauto.
Qed.

Lemma serve_provider_list a g qp vd ah d now :
  groups_named d (user_username a) = [g] →
  serve ProviderViewSet ListRoute (mkreq GET (Authenticated a) qp vd ah) d now
  = ({| status_code := 200;
        data := Many ProviderSerializer (qs_rows (visible_providers now g) d) |},
     {| db := d; clock := now; queries := [Group; Provider];
        self := instantiate ProviderViewSet
                  (mkreq GET (Authenticated a) qp vd ah) None |}).
Proof. intros Hg. run. fold_groups_named a d. rewrite Hg. reflexivity. Qed.

(** X3.  When exactly one group is named after the user, a provider is
    listed if and only if it is linked to that group, currently active, and
    its [active] flag is set. *)
Theorem provider_list_iff_in_own_group a g qp vd ah d now x :
  groups_named d (user_username a) = [g] →
  x ∈ listed (serve ProviderViewSet ListRoute
                (mkreq GET (Authenticated a) qp vd ah) d now).1
  ↔ x ∈ tables d Provider
    ∧ (pk g, pk x) ∈ links d Group "providers"
    ∧ only_current_at now d Provider x = true
    ∧ field "active" x = VBool true.
Proof.
  intros Hg. rewrite (serve_provider_list a g) by done. cbn [listed data fst].
  apply visible_providers_elem.
Qed.

Lemma provider_list_iff_in_own_group_witness :
  groups_named demo_db (user_username alice)
    = [mkrow [("id", VInt 10); ("name", VStr "alice")]]
  ∧ mkrow [("id", VInt 20); ("active", VBool true); ("start_date", VInt 0)]
    ∈ listed (serve ProviderViewSet ListRoute
                (mkreq GET (Authenticated alice) ∅ None true) demo_db 100).1.
Proof.
  assert (H1 : groups_named demo_db (user_username alice)
               = [mkrow [("id", VInt 10); ("name", VStr "alice")]])
    by (vm_compute; reflexivity).
  split; [exact H1|].
  apply (proj2 (provider_list_iff_in_own_group alice _ ∅ None true demo_db 100 _ H1)).
  split; [vm_compute; left|]. split; [vm_compute; left|].
  split; vm_compute; reflexivity.
Defined.

Lemma in_provider d qs x :
  in_ ["provider"] qs d Size x = true
  ↔ field "provider" x ≠ VNone ∧ field "provider" x ∈ pk <$> qs_rows qs d.
Proof.
  change (in_ ["provider"] qs d Size x)
    with (bool_decide (field "provider" x ≠ VNone
                       ∧ field "provider" x ∈ pk <$> qs_rows qs d) || false).
  rewrite orb_false_r. apply bool_decide_eq_true.
Qed.

Lemma serve_size_list a g qp vd ah d now :
  groups_named d (user_username a) = [g] →
  serve SizeViewSet ListRoute (mkreq GET (Authenticated a) qp vd ah) d now
  = ({| status_code := 200;
        data := Many SizeSerializer
                  (qs_rows (qs_filter [only_current_at now;
                                       in_ ["provider"] (visible_providers now g)]
                                      (objects Size)) d) |},
     {| db := d; clock := now; queries := [Group; Size];
        self := instantiate SizeViewSet (mkreq GET (Authenticated a) qp vd ah) None |}).
Proof. intros Hg. run. fold_groups_named a d. rewrite Hg. reflexivity. Qed.

(** X4.  When exactly one group is named after the user, a size is listed
    if and only if it is currently active and its provider is one of the
    providers the user sees. *)
Theorem size_list_iff_of_visible_provider a g qp vd ah d now x :
  groups_named d (user_username a) = [g] →
  x ∈ listed (serve SizeViewSet ListRoute
                (mkreq GET (Authenticated a) qp vd ah) d now).1
  ↔ x ∈ tables d Size
    ∧ only_current_at now d Size x = true
    ∧ field "provider" x ≠ VNone
    ∧ ∃ p, p ∈ tables d Provider
           ∧ pk p = field "provider" x
           ∧ (pk g, pk p) ∈ links d Group "providers"
           ∧ only_current_at now d Provider p = true
           ∧ field "active" p = VBool true.
Proof.
  intros Hg. rewrite (serve_size_list a g) by done. cbn [listed data fst].
  rewrite qs_rows_filter. cbn [qs_rows qs_model objects forallb].
  rewrite andb_true_r, andb_true_iff, in_provider, list_elem_of_fmap.
  setoid_rewrite visible_providers_elem. split.
  - intros (Hx & Ha & Hn & p & Hp & Hv). repeat (split; [done|]).
    exists p. intuition congruence.
  - intros (Hx & Ha & Hn & p & Hp & Hk & Hv). repeat (split; [done|]).
    exists p. intuition congruence.
Qed.

Lemma size_list_iff_of_visible_provider_witness :
  groups_named demo_db (user_username alice)
    = [mkrow [("id", VInt 10); ("name", VStr "alice")]]
  ∧ mkrow [("id", VInt 31); ("provider", VInt 20); ("start_date", VInt 0);
           ("end_date", VInt 50)]
    ∉ listed (serve SizeViewSet ListRoute
                (mkreq GET (Authenticated alice) ∅ None true) demo_db 100).1.
Proof.
  assert (H1 : groups_named demo_db (user_username alice)
               = [mkrow [("id", VInt 10); ("name", VStr "alice")]])
    by (vm_compute; reflexivity).
  split; [exact H1|]. intros Hin.
  apply (proj1 (size_list_iff_of_visible_provider alice _ ∅ None true demo_db 100 _ H1))
    in Hin.
  destruct Hin as (_ & Ha & _). vm_compute in Ha. discriminate.
Defined.

Lemma in_identity_provider d qs x :
  in_ ["provider"] qs d Identity x = true
  ↔ field "provider" x ≠ VNone ∧ field "provider" x ∈ pk <$> qs_rows qs d.
Proof.
  change (in_ ["provider"] qs d Identity x)
    with (bool_decide (field "provider" x ≠ VNone
                       ∧ field "provider" x ∈ pk <$> qs_rows qs d) || false).
  rewrite orb_false_r. apply bool_decide_eq_true.
Qed.

Lemma serve_identity_list a g qp vd ah d now :
  groups_named d (user_username a) = [g] →
  serve IdentityViewSet ListRoute (mkreq GET (Authenticated a) qp vd ah) d now
  = ({| status_code := 200;
        data := Many IdentitySerializer
                  (qs_rows (qs_filter [in_ ["provider"] (visible_providers now g)]
                              (related_manager AtmosphereUser "identity_set"
                                 {["id" := VInt (user_pk a)]})) d) |},
     {| db := d; clock := now; queries := [Group; Identity];
        self := instantiate IdentityViewSet
                  (mkreq GET (Authenticated a) qp vd ah) None |}).
Proof. intros Hg. run. fold_groups_named a d. rewrite Hg. reflexivity. Qed.

(** X5.  When exactly one group is named after the user, an identity is
    listed if and only if the user created it and its provider is one of the
    providers the user sees; no activity window applies to the identity
    itself. *)
Theorem identity_list_iff_own_and_visible_provider a g qp vd ah d now x :
  groups_named d (user_username a) = [g] →
  x ∈ listed (serve IdentityViewSet ListRoute
                (mkreq GET (Authenticated a) qp vd ah) d now).1
  ↔ x ∈ tables d Identity
    ∧ field "created_by" x = VInt (user_pk a)
    ∧ field "provider" x ≠ VNone
    ∧ ∃ p, p ∈ tables d Provider
           ∧ pk p = field "provider" x
           ∧ (pk g, pk p) ∈ links d Group "providers"
           ∧ only_current_at now d Provider p = true
           ∧ field "active" p = VBool true.
Proof.
  intros Hg. rewrite (serve_identity_list a g) by done. cbn [listed data fst].
  rewrite qs_rows_filter.
  change (qs_rows (related_manager AtmosphereUser "identity_set"
                     {["id" := VInt (user_pk a)]}) d)
    with (filter (λ x, field "created_by" x = pk {["id" := VInt (user_pk a)]}
                       ∧ pk {["id" := VInt (user_pk a)]} ≠ VNone)
                 (tables d Identity)).
  change (qs_model (related_manager AtmosphereUser "identity_set"
                      {["id" := VInt (user_pk a)]})) with Identity.
  assert (Hpk : pk ({["id" := VInt (user_pk a)]} : row) = VInt (user_pk a)).
  { unfold pk, field. rewrite lookup_singleton_eq. reflexivity. }
  rewrite Hpk, list_elem_of_filter. cbn [forallb].
  rewrite andb_true_r, in_identity_provider, list_elem_of_fmap.
  setoid_rewrite visible_providers_elem. split.
  - intros (((Hc & _) & Hx) & Hn & p & Hk & Hp & Hv). repeat (split; [done|]).
    exists p. split; [done|]. split; done.
  - intros (Hx & Hc & Hn & p & Hp & Hk & Hv). repeat (split; [done|]).
    exists p. split; [done|]. split; done.
Qed.

Lemma identity_list_iff_own_and_visible_provider_witness :
  groups_named site_db (user_username alice)
    = [mkrow [("id", VInt 10); ("name", VStr "alice")]]
  ∧ pk <$> listed (serve IdentityViewSet ListRoute
                     (mkreq GET (Authenticated alice) ∅ None true) site_db 100).1
    = [VInt 60]
  ∧ mkrow [("id", VInt 61); ("created_by", VInt 2); ("provider", VInt 20)]
    ∉ listed (serve IdentityViewSet ListRoute
                (mkreq GET (Authenticated alice) ∅ None true) site_db 100).1.
Proof.
  assert (H1 : groups_named site_db (user_username alice)
               = [mkrow [("id", VInt 10); ("name", VStr "alice")]])
    by (vm_compute; reflexivity).
  split; [exact H1|]. split; [vm_compute; reflexivity|]. intros Hin.
  apply (proj1 (identity_list_iff_own_and_visible_provider alice _ ∅ None true
                  site_db 100 _ H1)) in Hin.
  destruct Hin as (_ & Hc & _). vm_compute in Hc. discriminate.
Defined.

(** ** Rows outside the user's scope *)

Lemma detail_query_nil v qp conds m key d :
  related_field m "id" = None →
  (∀ x, x ∈ tables d m → value_eq (VInt key) (pk x) = true →
        forallb (λ q, q d m x) conds = false) →
  qs_rows (qs_filter [exact ["id"] (VInt key)]
             (DjangoFilterBackend v qp (qs_filter conds (objects m)))) d = [].
Proof.
  intros Hid H.
  destruct (qs_rows _ d) as [|x l] eqn:E; [done|]. exfalso.
  assert (Hx : x ∈ x :: l) by left. rewrite <- E in Hx.
  apply qs_rows_filter in Hx as [Hx Hk].
  rewrite DjangoFilterBackend_model in Hk. cbn [qs_model qs_filter objects forallb] in Hk.
  apply DjangoFilterBackend_subset, qs_rows_filter in Hx as [Hx Hc].
  cbn [qs_rows qs_model objects] in Hx, Hc.
  unfold exact in Hk. cbn [path_values] in Hk. rewrite Hid in Hk.
  cbn [existsb] in Hk. rewrite orb_false_r, andb_true_r in Hk.
  rewrite (H x Hx Hk) in Hc. discriminate.
Qed.

Lemma user_scoped_conds_false v k d now x :
  v ∈ user_scoped →
  value_eq (VInt k) (field (user_column v) x) = false →
  forallb (λ q, q d (model_of v) x)
    (match v with
     | ImageBookmarkViewSet => []
     | _ => [only_current_at now]
     end ++ [exact [user_column v] (VInt k)]) = false.
Proof.
  intros Hv H. rewrite forallb_app. cbn [forallb].
  rewrite exact_user_column, H by done. cbn. apply andb_false_r.
Qed.

(** X6.  On the Volume, Instance and ImageBookmark handlers a GET, PUT,
    PATCH or DELETE of an id whose rows all carry another user is answered
    404 and leaves the database as it was. *)
Theorem foreign_row_is_not_found v m a key qp vd ah d now :
  v ∈ user_scoped →
  m ∈ detail_verbs →
  (∀ x, x ∈ tables d (model_of v) → value_eq (VInt key) (pk x) = true →
        value_eq (VInt (user_pk a)) (field (user_column v) x) = false) →
  (serve v (DetailRoute key) (mkreq m (Authenticated a) qp vd ah) d now).1
    = {| status_code := 404; data := Detail Http404 |}
  ∧ db (serve v (DetailRoute key) (mkreq m (Authenticated a) qp vd ah) d now).2 = d.
Proof.
  intros Hv Hm H.
  assert (Hnil : qs_rows (qs_filter [exact ["id"] (VInt key)]
                   (DjangoFilterBackend v qp
                      (qs_filter
                         (match v with
                          | ImageBookmarkViewSet => []
                          | _ => [only_current_at now]
                          end ++ [exact [user_column v] (VInt (user_pk a))])
                         (objects (model_of v))))) d = []).
  { apply detail_query_nil.
    - destruct (user_scoped_cases v Hv) as [->|[->| ->]]; reflexivity.
    - intros x Hx Hk. apply user_scoped_conds_false; [done|]. by apply H. }
  unfold detail_verbs in Hm. rewrite !elem_of_cons, elem_of_nil in Hm.
  destruct (user_scoped_cases v Hv) as [->|[->| ->]];
    cbn [app user_column model_of] in Hnil;
    destruct Hm as [->|[->|[->|[->|[]]]]];
    run_keeping_filters; rewrite Hnil; split; reflexivity.
Qed.

Lemma foreign_row_is_not_found_witness :
  ImageBookmarkViewSet ∈ user_scoped
  ∧ DELETE ∈ detail_verbs
  ∧ (∀ x, x ∈ tables site_db (model_of ImageBookmarkViewSet) →
          value_eq (VInt 71) (pk x) = true →
          value_eq (VInt (user_pk alice)) (field (user_column ImageBookmarkViewSet) x)
          = false)
  ∧ (serve ImageBookmarkViewSet (DetailRoute 71)
       (mkreq DELETE (Authenticated alice) ∅ None true) site_db 100).1
    = {| status_code := 404; data := Detail Http404 |}.
Proof.
  assert (H1 : ImageBookmarkViewSet ∈ user_scoped)
    by (unfold user_scoped; do 2 right; left).
  assert (H2 : DELETE ∈ detail_verbs) by (unfold detail_verbs; do 3 right; left).
  assert (H3 : ∀ x, x ∈ tables site_db (model_of ImageBookmarkViewSet) →
                    value_eq (VInt 71) (pk x) = true →
                    value_eq (VInt (user_pk alice))
                             (field (user_column ImageBookmarkViewSet) x) = false).
  { intros x Hx Hk. cbn [tables site_db model_of] in Hx.
    rewrite !elem_of_cons in Hx. rewrite elem_of_nil in Hx.
    destruct Hx as [->|[->|[]]]; [vm_compute in Hk; discriminate|].
    vm_compute. reflexivity. }
  split; [exact H1|]. split; [exact H2|]. split; [exact H3|].
  exact (proj1 (foreign_row_is_not_found ImageBookmarkViewSet DELETE alice 71 ∅ None true
                  site_db 100 H1 H2 H3)).
Defined.

(** ** The related lists of a visible project *)

Lemma serve_project_instances u key p qp vd ah d now :
  visible_project d now u key = [p] →
  (serve ProjectViewSet (DetailAction "instances" key) (mkreq GET u qp vd ah) d now).1
  = {| status_code := 200;
       data := Many InstanceSerializer
                 (qs_rows (related_manager Project "instances" p) d) |}
  ∧ queries (serve ProjectViewSet (DetailAction "instances" key)
               (mkreq GET u qp vd ah) d now).2 = [Project; Instance].
Proof.
  intros Hv. run_keeping_filters.
  change (qs_rows (qs_filter [exact ["id"] (VInt key)]
            (DjangoFilterBackend ProjectViewSet qp
               (qs_filter [only_current_at now;
                           exact ["owner"; "name"] (VStr (username u))]
                          (objects Project)))) d)
    with (visible_project d now u key).
  rewrite Hv. split; reflexivity.
Qed.

Lemma serve_project_volumes u key p qp vd ah d now :
  visible_project d now u key = [p] →
  (serve ProjectViewSet (DetailAction "volumes" key) (mkreq GET u qp vd ah) d now).1
  = {| status_code := 200;
       data := Many VolumeSerializer
                 (qs_rows (related_manager Project "volumes" p) d) |}
  ∧ queries (serve ProjectViewSet (DetailAction "volumes" key)
               (mkreq GET u qp vd ah) d now).2 = [Project; Volume].
Proof.
  intros Hv. run_keeping_filters.
  change (qs_rows (qs_filter [exact ["id"] (VInt key)]
            (DjangoFilterBackend ProjectViewSet qp
               (qs_filter [only_current_at now;
                           exact ["owner"; "name"] (VStr (username u))]
                          (objects Project)))) d)
    with (visible_project d now u key).
  rewrite Hv. split; reflexivity.
Qed.

(** X7.  For a project the user sees, the [instances] and [volumes]
    actions answer 200 with every instance, or volume, linked to the project,
    in table order: neither the creating user nor the activity window narrows
    them. *)
Theorem project_related_lists_show_every_linked_row u key p qp vd ah d now :
  visible_project d now u key = [p] →
  (serve ProjectViewSet (DetailAction "instances" key) (mkreq GET u qp vd ah) d now).1
  = {| status_code := 200;
       data := Many InstanceSerializer
                 (filter (λ x, (pk p, pk x) ∈ links d Project "instances")
                         (tables d Instance)) |}
  ∧ (serve ProjectViewSet (DetailAction "volumes" key) (mkreq GET u qp vd ah) d now).1
    = {| status_code := 200;
         data := Many VolumeSerializer
                   (filter (λ x, (pk p, pk x) ∈ links d Project "volumes")
                           (tables d Volume)) |}.
Proof.
  intros Hv. split.
  - apply (serve_project_instances u key p qp vd ah d now Hv).
  - apply (serve_project_volumes u key p qp vd ah d now Hv).
Qed.

Lemma project_related_lists_show_every_linked_row_witness :
  visible_project site_db 100 (Authenticated alice) 1
    = [mkrow [("id", VInt 1); ("owner", VInt 10); ("start_date", VInt 0)]]
  ∧ pk <$> listed (serve ProjectViewSet (DetailAction "instances" 1)
                     (mkreq GET (Authenticated alice) ∅ None true) site_db 100).1
    = [VInt 50; VInt 51].
Proof.
  assert (H1 : visible_project site_db 100 (Authenticated alice) 1
               = [mkrow [("id", VInt 1); ("owner", VInt 10); ("start_date", VInt 0)]])
    by (vm_compute; reflexivity).
  split; [exact H1|].
  rewrite (proj1 (project_related_lists_show_every_linked_row (Authenticated alice) 1 _
                    ∅ None true site_db 100 H1)).
  vm_compute. reflexivity.
Defined.

(** ** Verbs and requesters on the Provider handler *)

(** X8.  The Provider handler refuses every anonymous request, whatever
    the verb and the route, with 401 (403 without an authentication header)
    before any query. *)
Theorem provider_refuses_anonymous m rt qp vd ah d now :
  serve ProviderViewSet rt (mkreq m AnonymousUser qp vd ah) d now
  = ({| status_code := if ah then 401 else 403; data := Detail NotAuthenticated |},
     {| db := d; clock := now; queries := [];
        self := (if bool_decide (m = DELETE ∨ m = PUT)
                 then set_permission_classes [IsAdminUser] else id)
                  (instantiate ProviderViewSet (mkreq m AnonymousUser qp vd ah)
                     (route_pk rt)) |}).
Proof. destruct m; reflexivity. Qed.

Lemma bound_TRACE v rt : bound v rt TRACE = None.
Proof.
  destruct rt as [|key|a key]; [destruct v; reflexivity..|].
  unfold bound, action_map.
  destruct (existsb (String.eqb a) (detail_routes v)); [|reflexivity].
  cbn [List.filter snd]. destruct (hasattr v a); reflexivity.
Qed.

Lemma handler_TRACE v rt : handler v rt TRACE = None.
Proof.
  unfold handler. rewrite bound_TRACE. destruct (existsb _ _); reflexivity.
Qed.

Lemma serve_without_handler v rt req d now s' :
  check_permissions (initial_state v rt req d now) = (Return (), s') →
  view_class (self s') = v →
  method (request (self s')) = method req →
  handler v rt (method req) = None →
  (serve v rt req d now).1 = {| status_code := 405; data := Detail MethodNotAllowed |}.
Proof.
  intros Hp Hv Hm Hh. unfold serve, dispatch, mbind, M_bind.
  change {| db := d; clock := now; queries := [];
            self := instantiate v req (route_pk rt) |}
    with (initial_state v rt req d now).
  rewrite Hp. unfold get_self. rewrite Hv, Hm, Hh. reflexivity.
Qed.

(** X9.  For an authenticated user who is not staff the Provider handler
    answers DELETE and PUT with 403, from the permission swap of
    [get_permissions], and POST, PATCH and TRACE with 405: [trace] is listed
    in [http_method_names] but no action answers it. *)
Theorem provider_verbs_for_non_staff a rt qp vd ah d now :
  user_is_staff a = false →
  Forall (λ m, (serve ProviderViewSet rt (mkreq m (Authenticated a) qp vd ah) d now).1
               = {| status_code := 403; data := Detail PermissionDenied |})
         [DELETE; PUT]
  ∧ Forall (λ m, (serve ProviderViewSet rt (mkreq m (Authenticated a) qp vd ah) d now).1
                 = {| status_code := 405; data := Detail MethodNotAllowed |})
           [POST; PATCH; TRACE].
Proof.
  intros Ha. destruct a as [k n st]; simpl in Ha; subst st.
  split; repeat constructor.
  eapply serve_without_handler; [reflexivity..|]. apply handler_TRACE.
Qed.

Lemma provider_verbs_for_non_staff_witness :
  user_is_staff alice = false
  ∧ (serve ProviderViewSet (DetailRoute 20)
       (mkreq DELETE (Authenticated alice) ∅ None true) demo_db 100).1
    = {| status_code := 403; data := Detail PermissionDenied |}
  ∧ (serve ProviderViewSet (DetailRoute 20)
       (mkreq PATCH (Authenticated alice) ∅ None true) demo_db 100).1
    = {| status_code := 405; data := Detail MethodNotAllowed |}.
Proof.
  assert (H1 : user_is_staff alice = false) by reflexivity.
  split; [exact H1|].
  destruct (provider_verbs_for_non_staff alice (DetailRoute 20) ∅ None true demo_db 100 H1)
    as [Hd Hm].
  split.
  - exact (Forall_inv Hd).
  - exact (Forall_inv (Forall_inv_tail Hm)).
Defined.

(** ** Handlers without a scope *)

Lemma unscoped_cases v :
  v ∈ unscoped →
  v = TagViewSet ∨ v = QuotaViewSet ∨ v = AllocationViewSet
  ∨ v = InstanceActionViewSet ∨ v = VolumeActionViewSet
  ∨ v = ProviderTypeViewSet ∨ v = PlatformTypeViewSet
  ∨ v = ProviderMachineViewSet.
Proof. unfold unscoped. rewrite !elem_of_cons, elem_of_nil. tauto. Qed.

(** X10.  The handlers that declare neither a query nor filters (tags,
    quotas, allocations, instance and volume actions, provider and platform
    types, provider machines) list the whole table to every authenticated
    user, in table order, and retrieve any row by its id: nothing ties the
    rows to the requester. *)
Theorem unscoped_handlers_show_every_row v a key t qp vd ah d now :
  v ∈ unscoped →
  with_pk d (model_of v) key = [t] →
  (serve v ListRoute (mkreq GET (Authenticated a) qp vd ah) d now).1
  = {| status_code := 200;
       data := Many (class_serializer_class v) (tables d (model_of v)) |}
  ∧ (serve v (DetailRoute key) (mkreq GET (Authenticated a) qp vd ah) d now).1
    = {| status_code := 200; data := One (class_serializer_class v) t |}.
Proof.
  intros Hv Ht.
  destruct (unscoped_cases v Hv) as [->|[->|[->|[->|[->|[->|[->| ->]]]]]]];
    (split; [reflexivity|]); cbn [model_of] in Ht; run;
    match type of Ht with with_pk _ ?m _ = _ => fold_with_pk d m key end;
    rewrite Ht; reflexivity.
Qed.

Lemma unscoped_handlers_show_every_row_witness :
  QuotaViewSet ∈ unscoped
  ∧ with_pk site_db (model_of QuotaViewSet) 80
    = [mkrow [("id", VInt 80); ("cpu", VInt 16)]]
  ∧ (serve QuotaViewSet (DetailRoute 80) (mkreq GET (Authenticated bob) ∅ None true)
       site_db 100).1
    = {| status_code := 200;
         data := One QuotaSerializer (mkrow [("id", VInt 80); ("cpu", VInt 16)]) |}.
Proof.
  assert (H1 : QuotaViewSet ∈ unscoped) by (unfold unscoped; right; left).
  assert (H2 : with_pk site_db (model_of QuotaViewSet) 80
               = [mkrow [("id", VInt 80); ("cpu", VInt 16)]])
    by (vm_compute; reflexivity).
  split; [exact H1|]. split; [exact H2|].
  exact (proj2 (unscoped_handlers_show_every_row QuotaViewSet bob 80 _ ∅ None true
                  site_db 100 H1 H2)).
Defined.

(** X11.  Tags can be read without authentication: the Tag list answers
    every requester, the anonymous one included, with the whole table. *)
Theorem tag_list_open_to_everyone u qp vd ah d now :
  serve TagViewSet ListRoute (mkreq GET u qp vd ah) d now
  = ({| status_code := 200; data := Many TagSerializer (tables d Tag) |},
     {| db := d; clock := now; queries := [Tag];
        self := instantiate TagViewSet (mkreq GET u qp vd ah) None |}).
Proof. reflexivity. Qed.

Lemma tag_partial_update a key t (payload : row) qp ah d now :
  with_pk d Tag key = [t] →
  serve TagViewSet (DetailRoute key)
    (mkreq PATCH (Authenticated a) qp (Some payload) ah) d now
  = ({| status_code := 200; data := One TagSerializer ((∅ ∪ payload) ∪ t) |},
     {| db := set_table Tag
                ((λ x, if decide (pk x = pk ((∅ ∪ payload) ∪ t))
                       then (∅ ∪ payload) ∪ t else x) <$> tables d Tag) d;
        clock := now; queries := [Tag];
        self := instantiate TagViewSet
                  (mkreq PATCH (Authenticated a) qp (Some payload) ah) (Some key) |}).
Proof.
  intros Ht. run. fold_with_pk d Tag key. rewrite Ht. reflexivity.
Qed.

(** X12.  Any authenticated user, staff or not and whoever the tag belongs
    to, can PATCH an existing tag: the answer is 200, the validated fields
    are laid over the stored row and the other rows stay as they were. *)
Theorem tag_partial_update_by_any_user a key t (payload : row) qp ah d now :
  with_pk d Tag key = [t] →
  payload !! "id" = None →
  (serve TagViewSet (DetailRoute key)
     (mkreq PATCH (Authenticated a) qp (Some payload) ah) d now).1
  = {| status_code := 200; data := One TagSerializer (payload ∪ t) |}
  ∧ tables (db (serve TagViewSet (DetailRoute key)
                  (mkreq PATCH (Authenticated a) qp (Some payload) ah) d now).2) Tag
    = (λ x, if decide (pk x = pk t) then payload ∪ t else x) <$> tables d Tag
  ∧ ∀ f v, payload !! f = Some v → field f (payload ∪ t) = v.
Proof.
  intros Ht Hid. rewrite (tag_partial_update a key t) by done.
  rewrite (left_id_L ∅ (∪)).
  assert (Hpk : pk (payload ∪ t) = pk t).
  { unfold pk, field. rewrite lookup_union_r by done. reflexivity. }
  split; [reflexivity|]. split.
  - cbn [snd db tables set_table]. rewrite fn_lookup_insert, Hpk. reflexivity.
  - intros f v Hf. unfold field. erewrite lookup_union_Some_l by done. reflexivity.
Qed.

Lemma tag_partial_update_by_any_user_witness :
  with_pk demo_db Tag 7 = [mkrow [("id", VInt 7); ("name", VStr "x"); ("user", VInt 2)]]
  ∧ mkrow [("name", VStr "y")] !! "id" = None
  ∧ (serve TagViewSet (DetailRoute 7)
       (mkreq PATCH (Authenticated alice) ∅ (Some (mkrow [("name", VStr "y")])) true)
       demo_db 100).1
    = {| status_code := 200;
         data := One TagSerializer
                   (mkrow [("name", VStr "y")]
                    ∪ mkrow [("id", VInt 7); ("name", VStr "x"); ("user", VInt 2)]) |}.
Proof.
  assert (H1 : with_pk demo_db Tag 7
               = [mkrow [("id", VInt 7); ("name", VStr "x"); ("user", VInt 2)]])
    by (vm_compute; reflexivity).
  assert (H2 : mkrow [("name", VStr "y")] !! "id" = None) by (vm_compute; reflexivity).
  split; [exact H1|]. split; [exact H2|].
  exact (proj1 (tag_partial_update_by_any_user alice 7 _ _ ∅ true demo_db 100 H1 H2)).
Defined.

(** ** Declared filter fields *)

Lemma serve_user_list a qp vd ah d now :
  (serve UserViewSet ListRoute (mkreq GET (Authenticated a) qp vd ah) d now).1
  = {| status_code := 200;
       data := Many UserSerializer
                 (qs_rows (apply_filter qp (objects AtmosphereUser)
                             (filter_field "email" ["email"])) d) |}.
Proof. reflexivity. Qed.

(** X13.  The User list shows an authenticated requester every user when
    the query string has no [email] (or an empty one), and otherwise exactly
    the users whose [email] equals the parameter. *)
Theorem user_list_filters_by_email a qp vd ah d now x :
  x ∈ listed (serve UserViewSet ListRoute (mkreq GET (Authenticated a) qp vd ah) d now).1
  ↔ x ∈ tables d AtmosphereUser
    ∧ match qp !! "email" with
      | None | Some VNone => True
      | Some e => value_eq e (field "email" x) = true
      end.
Proof.
  rewrite serve_user_list. cbn [listed data fst]. unfold apply_filter.
  cbn [param filter_field name lookup lookup_condition].
  destruct (qp !! "email") as [[]|]; try (cbn [qs_rows objects]; tauto);
    rewrite qs_rows_filter; cbn [qs_rows qs_model objects forallb];
    match goal with
    | |- context [exact ["email"] ?e d AtmosphereUser x] =>
        change (exact ["email"] e d AtmosphereUser x)
          with (value_eq e (field "email" x) || false)
    end;
    rewrite orb_false_r, andb_true_r; tauto.
Qed.






(** ** Providers the user does not see *)

Lemma visible_provider_with_pk_nil d now g key :
  (∀ p, p ∈ tables d Provider → value_eq (VInt key) (pk p) = true →
        ¬ ((pk g, pk p) ∈ links d Group "providers"
           ∧ only_current_at now d Provider p = true
           ∧ field "active" p = VBool true)) →
  qs_rows (qs_filter [exact ["id"] (VInt key)] (visible_providers now g)) d = [].
Proof.
  intros H. destruct (qs_rows _ d) as [|p l] eqn:E; [done|]. exfalso.
  assert (Hp : p ∈ p :: l) by left. rewrite <- E in Hp.
  apply qs_rows_filter in Hp as [Hp Hk].
  apply visible_providers_elem in Hp as (Hin & Hl & Ha & Hf).
  change (qs_model (visible_providers now g)) with Provider in Hk.
  cbn [forallb] in Hk.
  change (exact ["id"] (VInt key) d Provider p)
    with (value_eq (VInt key) (pk p) || false) in Hk.
  rewrite orb_false_r, andb_true_r in Hk. exact (H p Hin Hk (conj Hl (conj Ha Hf))).
Qed.

(** X15.  When exactly one group is named after the user and no provider
    with the given id is linked to it, currently active and flagged active,
    both the retrieve and the [sizes] action of the Provider handler answer
    404, after the group and provider queries and nothing else. *)
Theorem provider_detail_of_unseen_provider_not_found a g key qp vd ah d now :
  groups_named d (user_username a) = [g] →
  (∀ p, p ∈ tables d Provider → value_eq (VInt key) (pk p) = true →
        ¬ ((pk g, pk p) ∈ links d Group "providers"
           ∧ only_current_at now d Provider p = true
           ∧ field "active" p = VBool true)) →
  Forall (λ rt,
      (serve ProviderViewSet rt (mkreq GET (Authenticated a) qp vd ah) d now).1
      = {| status_code := 404; data := Detail Http404 |}
      ∧ queries (serve ProviderViewSet rt (mkreq GET (Authenticated a) qp vd ah) d now).2
        = [Group; Provider])
    [DetailRoute key; DetailAction "sizes" key].
Proof.
  intros Hg Hp. apply visible_provider_with_pk_nil in Hp.
  repeat constructor; run_keeping_filters; fold_groups_named a d; rewrite Hg;
    cbv beta iota;
    change (qs_rows (qs_filter [exact ["id"] (VInt key)]
              (DjangoFilterBackend ProviderViewSet qp
                 (qs_filter [only_current_at now; exact ["active"] (VBool true)]
                            (related_manager Group "providers" g)))) d)
      with (qs_rows (qs_filter [exact ["id"] (VInt key)] (visible_providers now g)) d);
    rewrite Hp; reflexivity.
Qed.

Lemma provider_detail_of_unseen_provider_not_found_witness :
  groups_named demo_db (user_username bob)
    = [mkrow [("id", VInt 11); ("name", VStr "bob")]]
  ∧ (∀ p, p ∈ tables demo_db Provider → value_eq (VInt 20) (pk p) = true →
          ¬ ((pk (mkrow [("id", VInt 11); ("name", VStr "bob")]), pk p)
               ∈ links demo_db Group "providers"
             ∧ only_current_at 100 demo_db Provider p = true
             ∧ field "active" p = VBool true))
  ∧ (serve ProviderViewSet (DetailRoute 20) (mkreq GET (Authenticated bob) ∅ None true)
       demo_db 100).1 = {| status_code := 404; data := Detail Http404 |}.
Proof.
  assert (H1 : groups_named demo_db (user_username bob)
               = [mkrow [("id", VInt 11); ("name", VStr "bob")]])
    by (vm_compute; reflexivity).
  assert (H2 : ∀ p, p ∈ tables demo_db Provider → value_eq (VInt 20) (pk p) = true →
                    ¬ ((pk (mkrow [("id", VInt 11); ("name", VStr "bob")]), pk p)
                         ∈ links demo_db Group "providers"
                       ∧ only_current_at 100 demo_db Provider p = true
                       ∧ field "active" p = VBool true)).
  { intros p Hin _ [Hl _]. cbn [tables demo_db] in Hin.
    apply list_elem_of_singleton in Hin. subst p.
    cbn [links demo_db] in Hl. apply list_elem_of_singleton in Hl.
    vm_compute in Hl. discriminate. }
  split; [exact H1|]. split; [exact H2|].
  exact (proj1 (Forall_inv (provider_detail_of_unseen_provider_not_found bob _ 20 ∅ None
                              true demo_db 100 H1 H2))).
Defined.

(** ** Writes *)

Lemma project_detail_not_found m u key qp vd ah d now :
  m ∈ detail_verbs →
  visible_project d now u key = [] →
  is_authenticated u = true →
  (serve ProjectViewSet (DetailRoute key) (mkreq m u qp vd ah) d now).1
    = {| status_code := 404; data := Detail Http404 |}
  ∧ db (serve ProjectViewSet (DetailRoute key) (mkreq m u qp vd ah) d now).2 = d.
Proof.
  intros Hm Hv Hu. destruct u as [|a]; [discriminate|].
  unfold detail_verbs in Hm. rewrite !elem_of_cons, elem_of_nil in Hm.
  destruct Hm as [->|[->|[->|[->|[]]]]]; run;
    change (qs_rows (qs_filter [exact ["id"] (VInt key)]
              (qs_filter [only_current_at now;
                          exact ["owner"; "name"] (VStr (username (Authenticated a)))]
                         (objects Project))) d)
      with (visible_project d now (Authenticated a) key);
    rewrite Hv; split; reflexivity.
Qed.

(** X16.  An authenticated user cannot read, replace, patch or delete a
    project that is not both owned by the group named after the user and
    currently active: the request is answered 404 and the database is left as
    it was. *)
Theorem foreign_project_is_not_found m a key qp vd ah d now :
  m ∈ detail_verbs →
  (∀ p, p ∈ tables d Project → value_eq (VInt key) (pk p) = true →
        ¬ (owner_named d p (user_username a)
           ∧ only_current_at now d Project p = true)) →
  (serve ProjectViewSet (DetailRoute key) (mkreq m (Authenticated a) qp vd ah) d now).1
    = {| status_code := 404; data := Detail Http404 |}
  ∧ db (serve ProjectViewSet (DetailRoute key)
          (mkreq m (Authenticated a) qp vd ah) d now).2 = d.
Proof.
  intros Hm Hp. apply project_detail_not_found; [exact Hm| |reflexivity].
  apply visible_project_nil. exact Hp.
Qed.

Lemma foreign_project_is_not_found_witness :
  DELETE ∈ detail_verbs
  ∧ (∀ p, p ∈ tables demo_db Project → value_eq (VInt 2) (pk p) = true →
          ¬ (owner_named demo_db p (user_username alice)
             ∧ only_current_at 100 demo_db Project p = true))
  ∧ (serve ProjectViewSet (DetailRoute 2)
       (mkreq DELETE (Authenticated alice) ∅ None true) demo_db 100).1
    = {| status_code := 404; data := Detail Http404 |}.
Proof.
  assert (H1 : DELETE ∈ detail_verbs) by (unfold detail_verbs; do 3 right; left).
  assert (H2 : ∀ p, p ∈ tables demo_db Project → value_eq (VInt 2) (pk p) = true →
                    ¬ (owner_named demo_db p (user_username alice)
                       ∧ only_current_at 100 demo_db Project p = true)).
  { intros p Hin Hk [(g & Hg & Hpk & _ & Hname) _].
    cbn [tables demo_db] in Hin, Hg.
    rewrite !elem_of_cons in Hin. rewrite elem_of_nil in Hin.
    rewrite !elem_of_cons in Hg. rewrite elem_of_nil in Hg.
    destruct Hin as [->|[->|[->|[]]]]; try (vm_compute in Hk; discriminate).
    destruct Hg as [->|[->|[]]].
    - vm_compute in Hpk. discriminate.
    - vm_compute in Hname. discriminate. }
  split; [exact H1|]. split; [exact H2|].
  exact (proj1 (foreign_project_is_not_found DELETE alice 2 ∅ None true demo_db 100
                  H1 H2)).
Defined.

(** X17.  The [created_by__id] filter of the Instance list cannot reach
    other users' instances: with an id other than the requester's own the
    list is empty. *)
Theorem instance_filter_by_other_creator_is_empty a (k : Z) qp vd ah d now :
  qp !! "created_by__id" = Some (VInt k) →
  k ≠ user_pk a →
  listed (serve InstanceViewSet ListRoute
            (mkreq GET (Authenticated a) qp vd ah) d now).1 = [].
Proof.
  intros Hq Hk.
  assert (Hv : InstanceViewSet ∈ user_scoped) by (unfold user_scoped; right; left).
  rewrite serve_user_scoped_list by exact Hv. cbn [listed data fst].
  destruct (qs_rows _ d) as [|x l] eqn:E; [done|]. exfalso.
  assert (Hx : x ∈ x :: l) by left. rewrite <- E in Hx.
  unfold DjangoFilterBackend in Hx. cbn [foldl filters] in Hx.
  apply apply_filter_elem in Hx as [Hx Hf].
  specialize (Hf (VInt k) Hq). assert (N : VInt k ≠ VNone) by discriminate.
  specialize (Hf N). cbn [lookup_condition lookup name filter_field qs_model
                          qs_filter objects model_of] in Hf.
  apply qs_rows_filter in Hx as [_ Hc].
  cbn [app forallb qs_model objects model_of user_column] in Hc.
  change (exact ["created_by"] (VInt (user_pk a)) d Instance x)
    with (value_eq (VInt (user_pk a)) (field "created_by" x) || false) in Hc.
  rewrite orb_false_r, !andb_true_r in Hc. apply andb_true_iff in Hc as [_ Hc].
  unfold exact in Hf. apply existsb_exists in Hf as (v & Hin & Hv').
  change (path_values d Instance ["created_by"; "id"] x)
    with (filter (λ u, pk u = field "created_by" x ∧ field "created_by" x ≠ VNone)
                 (tables d AtmosphereUser) ≫= λ u, [field "id" u]) in Hin.
  apply list_elem_of_In, list_elem_of_bind in Hin as (u & Hu & Hin).
  apply list_elem_of_singleton in Hu. subst v.
  apply list_elem_of_filter in Hin as [[Hpk _] _].
  change (field "id" u) with (pk u) in Hv'. rewrite Hpk in Hv'.
  apply value_eq_int_l in Hc, Hv'. rewrite Hc in Hv'.
  assert (Heq : Qc_of_Z (user_pk a) = Qc_of_Z k) by congruence.
  apply Z2Qc_inj in Heq. congruence.
Qed.

Lemma instance_filter_by_other_creator_is_empty_witness :
  ({["created_by__id" := VInt 2]} : gmap string value) !! "created_by__id"
    = Some (VInt 2)
  ∧ 2 ≠ user_pk alice
  ∧ listed (serve InstanceViewSet ListRoute
              (mkreq GET (Authenticated alice) {["created_by__id" := VInt 2]} None true)
              site_db 100).1 = [].
Proof.
  assert (H1 : ({["created_by__id" := VInt 2]} : gmap string value)
               !! "created_by__id" = Some (VInt 2)) by (vm_compute; reflexivity).
  assert (H2 : 2 ≠ user_pk alice) by discriminate.
  split; [exact H1|]. split; [exact H2|].
  exact (instance_filter_by_other_creator_is_empty alice 2 _ None true site_db 100 H1 H2).
Defined.

Lemma freely_deletable_cases v :
  v ∈ freely_deletable →
  v = QuotaViewSet ∨ v = AllocationViewSet ∨ v = InstanceActionViewSet
  ∨ v = VolumeActionViewSet ∨ v = ProviderTypeViewSet ∨ v = PlatformTypeViewSet
  ∨ v = ProviderMachineViewSet.
Proof. unfold freely_deletable. rewrite !elem_of_cons, elem_of_nil. tauto. Qed.

Lemma serve_create v a (payload : row) qp ah d now :
  v ≠ TagViewSet → v ≠ ProviderViewSet →
  (serve v ListRoute (mkreq POST (Authenticated a) qp (Some payload) ah) d now).1
  = {| status_code := 201;
       data := One (class_serializer_class v)
                 (<["id" := VInt (next_pk (tables d (model_of v)))]> (∅ ∪ payload)) |}
  ∧ tables (db (serve v ListRoute
                  (mkreq POST (Authenticated a) qp (Some payload) ah) d now).2)
           (model_of v)
    = tables d (model_of v)
      ++ [<["id" := VInt (next_pk (tables d (model_of v)))]> (∅ ∪ payload)].
Proof. intros Ht Hp. destruct v; try done; split; reflexivity. Qed.

(** X18.  Only the Tag handler stamps the requester on a new row: on every
    other handler that creates, a POST by an authenticated user is answered
    201 and stores the validated payload as it is with a fresh id, so the
    user columns of the row are whatever the payload says. *)
Theorem create_stores_the_payload_as_is v a (payload : row) qp ah d now :
  v ≠ TagViewSet → v ≠ ProviderViewSet →
  (serve v ListRoute (mkreq POST (Authenticated a) qp (Some payload) ah) d now).1
  = {| status_code := 201;
       data := One (class_serializer_class v)
                 (<["id" := VInt (next_pk (tables d (model_of v)))]> payload) |}
  ∧ tables (db (serve v ListRoute
                  (mkreq POST (Authenticated a) qp (Some payload) ah) d now).2)
           (model_of v)
    = tables d (model_of v)
      ++ [<["id" := VInt (next_pk (tables d (model_of v)))]> payload]
  ∧ ∀ f, f ≠ "id" →
         field f (<["id" := VInt (next_pk (tables d (model_of v)))]> payload)
         = field f payload.
Proof.
  intros Ht Hp.
  destruct (serve_create v a payload qp ah d now Ht Hp) as [H1 H2].
  rewrite (left_id_L ∅ (∪)) in H1, H2.
  split; [exact H1|]. split; [exact H2|].
  intros f Hf. unfold field. rewrite lookup_insert_ne by done. reflexivity.
Qed.

Lemma create_stores_the_payload_as_is_witness :
  VolumeViewSet ≠ TagViewSet ∧ VolumeViewSet ≠ ProviderViewSet
  ∧ field "created_by" <$>
      tables (db (serve VolumeViewSet ListRoute
                    (mkreq POST (Authenticated alice) ∅
                       (Some (mkrow [("size", VInt 3); ("created_by", VInt 2)])) true)
                    demo_db 100).2) Volume
    = [VInt 1; VInt 1; VInt 2].
Proof.
  assert (H1 : VolumeViewSet ≠ TagViewSet) by discriminate.
  assert (H2 : VolumeViewSet ≠ ProviderViewSet) by discriminate.
  split; [exact H1|]. split; [exact H2|].
  rewrite (proj1 (proj2 (create_stores_the_payload_as_is VolumeViewSet alice
                           (mkrow [("size", VInt 3); ("created_by", VInt 2)])
                           ∅ true demo_db 100 H1 H2))).
  vm_compute. reflexivity.
Defined.

(** X19.  On the handlers without a scope other than Tag, every
    authenticated user, staff or not, can delete any existing row: the answer
    is 204 and the table is left without the rows of that id. *)
Theorem unscoped_rows_deletable_by_any_user v a key t qp vd ah d now :
  v ∈ freely_deletable →
  with_pk d (model_of v) key = [t] →
  (serve v (DetailRoute key) (mkreq DELETE (Authenticated a) qp vd ah) d now).1
  = {| status_code := 204; data := NoContent |}
  ∧ tables (db (serve v (DetailRoute key)
                  (mkreq DELETE (Authenticated a) qp vd ah) d now).2) (model_of v)
    = filter (λ x, pk x ≠ pk t) (tables d (model_of v)).
Proof.
  intros Hv Ht.
  destruct (freely_deletable_cases v Hv) as [->|[->|[->|[->|[->|[->| ->]]]]]];
    cbn [model_of] in Ht |- *; run;
    match type of Ht with with_pk _ ?m _ = _ => fold_with_pk d m key end;
    rewrite Ht; split; reflexivity.
Qed.

Lemma unscoped_rows_deletable_by_any_user_witness :
  QuotaViewSet ∈ freely_deletable
  ∧ with_pk site_db (model_of QuotaViewSet) 80
    = [mkrow [("id", VInt 80); ("cpu", VInt 16)]]
  ∧ (serve QuotaViewSet (DetailRoute 80)
       (mkreq DELETE (Authenticated bob) ∅ None true) site_db 100).1
    = {| status_code := 204; data := NoContent |}.
Proof.
  assert (H1 : QuotaViewSet ∈ freely_deletable) by (unfold freely_deletable; left).
  assert (H2 : with_pk site_db (model_of QuotaViewSet) 80
               = [mkrow [("id", VInt 80); ("cpu", VInt 16)]])
    by (vm_compute; reflexivity).
  split; [exact H1|]. split; [exact H2|].
  exact (proj1 (unscoped_rows_deletable_by_any_user QuotaViewSet bob 80 _ ∅ None true
                  site_db 100 H1 H2)).
Defined.
